(** * steps-slack-message: the Slack notification step (main.go)

    A shallow embedding of [main.go]: the settings record read from the
    environment, its validation, and the construction and JSON serialization
    of the webhook payload.

    Go strings are byte sequences; they are modelled by [string], whose
    characters are the bytes.  Standard output is modelled as the list of
    events the code prints, and [os.Exit] as an outcome of its own, so that a
    function that terminates the process is told apart from one that
    returns. *)

From Stdlib Require Import ZArith NArith Ascii String List.
From stdpp Require Import base decidable option list strings gmap.

Set Warnings "-register-all".

Local Open Scope string_scope.
Local Open Scope Z_scope.

(** ** Constants of main.go (lines 15-18) *)

Definition formattingModeAttachment : string := "attachment".
Definition formattingModeText : string := "text".

(** ** Errors

    An [error] value is represented by its message; [nil] is [None] in an
    [option error]. *)

Definition error : Type := string.

Definition errors_New (msg : string) : error := msg.

(** [fmt.Errorf(prefix + "%s", arg)]: the verb [%s] inserts a string
    operand unchanged. *)
Definition fmt_Errorf_s (prefix arg : string) : error := prefix +:+ arg.

(** ** ConfigsModel (lines 20-40) *)

Record ConfigsModel : Type := mkConfigs {
  WebhookURL : string;
  Channel : string;
  FromUsername : string;
  FromUsernameOnError : string;
  Message : string;
  MessageOnError : string;
  FormattingMode : string;
  Color : string;
  ColorOnError : string;
  Emoji : string;
  EmojiOnError : string;
  IconURL : string;
  IconURLOnError : string;
  IsDebugMode : bool;
  IsBuildFailed : bool
}.

(** ** The process environment

    [os.Getenv] returns the value of the variable, which is empty when the
    variable is not set. *)

Definition os_Getenv (env : gmap string string) (key : string) : string :=
  default "" (env !! key).

Definition str_eqb (a b : string) : bool := bool_decide (a = b).

(** [createConfigsModelFromEnvs] (lines 42-62). *)
Definition createConfigsModelFromEnvs (env : gmap string string) : ConfigsModel :=
  {| WebhookURL := os_Getenv env "webhook_url";
     Channel := os_Getenv env "channel";
     FromUsername := os_Getenv env "from_username";
     FromUsernameOnError := os_Getenv env "from_username_on_error";
     Message := os_Getenv env "message";
     MessageOnError := os_Getenv env "message_on_error";
     FormattingMode := os_Getenv env "formatting_mode";
     Emoji := os_Getenv env "emoji";
     EmojiOnError := os_Getenv env "emoji_on_error";
     Color := os_Getenv env "color";
     ColorOnError := os_Getenv env "color_on_error";
     IconURL := os_Getenv env "icon_url";
     IconURLOnError := os_Getenv env "icon_url_on_error";
     IsDebugMode := str_eqb (os_Getenv env "is_debug_mode") "yes";
     IsBuildFailed := negb (str_eqb (os_Getenv env "STEPLIB_BUILD_STATUS") "0") |}.

(** ** validate (lines 87-108)

    The three required fields are tested in turn; the [switch] on the
    formatting mode then accepts the two known modes, reports the empty
    mode, and reports any other value by name. *)

Definition errNoWebhookURL : error :=
  errors_New "No Webhook URL parameter specified!".
Definition errNoMessage : error :=
  errors_New "No Message parameter specified!".
Definition errNoColor : error :=
  errors_New "No Color parameter specified!".
Definition errNoFormattingMode : error :=
  errors_New "No FormattingMode parameter specified!".
Definition errInvalidFormattingMode (mode : string) : error :=
  fmt_Errorf_s "Invalid FormattingMode: " mode.

Definition validate (configs : ConfigsModel) : option error :=
  if str_eqb (WebhookURL configs) "" then Some errNoWebhookURL
  else if str_eqb (Message configs) "" then Some errNoMessage
  else if str_eqb (Color configs) "" then Some errNoColor
  else
    (* switch configs.FormattingMode *)
    if str_eqb (FormattingMode configs) formattingModeText
       || str_eqb (FormattingMode configs) formattingModeAttachment
    then None
    else if str_eqb (FormattingMode configs) ""
    then Some errNoFormattingMode
    else Some (errInvalidFormattingMode (FormattingMode configs)).

(** ** The library functions the payload builder calls

    [json.Marshal] belongs to Go's standard library (encoding/json, as of
    Go 1.22), not to this repository; what follows is the part of it that
    values of type [RequestParams] exercise: struct members in declaration
    order, [omitempty], nil pointers as [null], and the escaping of string
    values with HTML escaping switched on, which is what [json.Marshal]
    does. *)

Module utf8.

Local Open Scope N_scope.

Definition RuneError : N := 0xFFFD.
Definition RuneSelf : N := 0x80.

(** The table [first]: the class of a first byte.  [0xF0] is ASCII,
    [0xF1] is an invalid first byte; otherwise the low three bits give the
    length of the sequence and the high four the index of the range the
    second byte must lie in. *)
Definition first (b : N) : N :=
  if b <? 0x80 then 0xF0
  else if b <? 0xC2 then 0xF1
  else if b <? 0xE0 then 0x02
  else if b =? 0xE0 then 0x13
  else if b <? 0xED then 0x03
  else if b =? 0xED then 0x23
  else if b <? 0xF0 then 0x03
  else if b =? 0xF0 then 0x34
  else if b <? 0xF4 then 0x04
  else if b =? 0xF4 then 0x44
  else 0xF1.

Definition acceptRanges (i : N) : N * N :=
  match i with
  | 0 => (0x80, 0xBF)
  | 1 => (0xA0, 0xBF)
  | 2 => (0x80, 0x9F)
  | 3 => (0x90, 0xBF)
  | 4 => (0x80, 0x8F)
  | _ => (0, 0)
  end.

Definition continuation (b : N) : bool := (0x80 <=? b) && (b <=? 0xBF).

(** [utf8.DecodeRuneInString]: the first rune of [s] and its width in
    bytes; an invalid encoding gives [(RuneError, 1)]. *)
Definition DecodeRuneInString (s : string) : N * nat :=
  match s with
  | EmptyString => (RuneError, 0%nat)
  | String c0 t0 =>
    let s0 := N_of_ascii c0 in
    let x := first s0 in
    if 0xF0 <=? x then ((if N.testbit x 0 then RuneError else s0), 1%nat)
    else
      let sz := N.to_nat (N.land x 7) in
      let accept := acceptRanges (N.shiftr x 4) in
      if (String.length s <? sz)%nat then (RuneError, 1%nat)
      else
        match t0 with
        | EmptyString => (RuneError, 1%nat)
        | String c1 t1 =>
          let s1 := N_of_ascii c1 in
          if (s1 <? fst accept) || (snd accept <? s1) then (RuneError, 1%nat)
          else if (sz <=? 2)%nat
          then (N.lor (N.shiftl (N.land s0 0x1F) 6) (N.land s1 0x3F), 2%nat)
          else
            match t1 with
            | EmptyString => (RuneError, 1%nat)
            | String c2 t2 =>
              let s2 := N_of_ascii c2 in
              if negb (continuation s2) then (RuneError, 1%nat)
              else if (sz <=? 3)%nat
              then (N.lor (N.lor (N.shiftl (N.land s0 0x0F) 12)
                                 (N.shiftl (N.land s1 0x3F) 6))
                          (N.land s2 0x3F), 3%nat)
              else
                match t2 with
                | EmptyString => (RuneError, 1%nat)
                | String c3 _ =>
                  let s3 := N_of_ascii c3 in
                  if negb (continuation s3) then (RuneError, 1%nat)
                  else (N.lor (N.lor (N.lor (N.shiftl (N.land s0 0x07) 18)
                                            (N.shiftl (N.land s1 0x3F) 12))
                                     (N.shiftl (N.land s2 0x3F) 6))
                              (N.land s3 0x3F), 4%nat)
                end
            end
        end
  end.

End utf8.

Module json.

Local Open Scope N_scope.

(** The double quote, written by its code: string literals of this file
    hold no quote characters. *)
Definition dquote : ascii := ascii_of_N 34.
Definition backslash : ascii := ascii_of_N 92.

Definition quoted (s : string) : string :=
  String dquote (s +:+ String dquote EmptyString).

(** [hex], the digits used in [\u00XX] escapes. *)
Definition hex (n : N) : ascii :=
  match String.get (N.to_nat n) "0123456789abcdef" with
  | Some c => c
  | None => "0"%char
  end.

(** [htmlSafeSet]: the ASCII bytes written without escaping. *)
Definition htmlSafeSet (b : N) : bool :=
  (0x20 <=? b) && (b <? 0x80)
  && negb ((b =? 0x22) || (b =? 0x5C) || (b =? 0x3C) || (b =? 0x3E) || (b =? 0x26)).

(** The [switch b] of [appendString] for an ASCII byte outside
    [htmlSafeSet]. *)
Definition escapeByte (c : ascii) : string :=
  let b := N_of_ascii c in
  if (b =? 0x5C) || (b =? 0x22) then String backslash (String c EmptyString)
  else if b =? 0x08 then String backslash "b"
  else if b =? 0x0C then String backslash "f"
  else if b =? 0x0A then String backslash "n"
  else if b =? 0x0D then String backslash "r"
  else if b =? 0x09 then String backslash "t"
  else String backslash
         ("u00" +:+ String (hex (N.shiftr b 4))
                      (String (hex (N.land b 0xF)) EmptyString)).

(** The loop of [appendString], on the part of the source string that is
    still to be encoded.  A byte below [RuneSelf] is copied or escaped; at
    any other byte a rune is decoded: an invalid one becomes the escape of U+FFFD and
    one byte is consumed, U+2028 and U+2029 are escaped, and every other
    rune is copied with all its bytes.  [DecodeRuneInString] looks at four
    bytes at most, so it is given the whole remainder. *)
Fixpoint appendString_loop (src : string) : string :=
  match src with
  | EmptyString => EmptyString
  | String c0 t0 =>
    let b := N_of_ascii c0 in
    if b <? utf8.RuneSelf then
      (if htmlSafeSet b then String c0 EmptyString else escapeByte c0)
        +:+ appendString_loop t0
    else
      let '(c, size) := utf8.DecodeRuneInString src in
      if (c =? utf8.RuneError) && (size =? 1)%nat then
        String backslash "ufffd" +:+ appendString_loop t0
      else
        match size, t0 with
        | 2%nat, String c1 t1 =>
          String c0 (String c1 (appendString_loop t1))
        | 3%nat, String c1 (String c2 t2) =>
          if (c =? 0x2028) || (c =? 0x2029)
          then String backslash
                 ("u202" +:+ String (hex (N.land c 0xF)) (appendString_loop t2))
          else String c0 (String c1 (String c2 (appendString_loop t2)))
        | 4%nat, String c1 (String c2 (String c3 t3)) =>
          String c0 (String c1 (String c2 (String c3 (appendString_loop t3))))
        | _, _ => EmptyString
        end
  end.

(** [appendString(dst, src, true)]: a JSON string literal. *)
Definition encodeString (src : string) : string :=
  quoted (appendString_loop src).

(** JSON documents as the encoder writes them. *)
Inductive value : Type :=
| Null : value
| Str : string -> value
| Arr : list value -> value
| Obj : list (string * value) -> value.

Fixpoint join (sep : string) (l : list string) : string :=
  match l with
  | [] => EmptyString
  | [x] => x
  | x :: rest => x +:+ sep +:+ join sep rest
  end.

(** The bytes written for a document: no white space, members and
    elements separated by commas, member names quoted. *)
Fixpoint render (v : value) : string :=
  match v with
  | Null => "null"
  | Str s => encodeString s
  | Arr l => "[" +:+ join "," (List.map render l) +:+ "]"
  | Obj m =>
    "{" +:+ join "," (List.map (fun kv => quoted (fst kv) +:+ ":" +:+ render (snd kv)) m)
        +:+ "}"
  end.

(** The value of the member named [k], if the object has one. *)
Fixpoint member (k : string) (m : list (string * value)) : option value :=
  match m with
  | [] => None
  | (k', v) :: rest => if str_eqb k k' then Some v else member k rest
  end.

End json.

(** ** Payload types (lines 110-128)

    A [*string] field is an [option string]: [None] is the nil pointer.
    Nothing writes through these pointers once they are taken, so a pointer
    is represented by the string it points to. *)

Module Attachment.

Record AttachmentItemModel : Type := mk {
  Fallback : string;   (* json:"fallback" *)
  Text : string;       (* json:"text" *)
  Color : string       (* json:"color,omitempty" *)
}.

End Attachment.

Module Request.

Record RequestParams : Type := mk {
  Text : string;                                        (* json:"text" *)
  Attachments : list Attachment.AttachmentItemModel;    (* json:"attachments,omitempty" *)
  Channel : option string;                              (* json:"channel" *)
  Username : option string;                             (* json:"username" *)
  EmojiIcon : option string;                            (* json:"icon_emoji" *)
  IconURL : option string                               (* json:"icon_url" *)
}.

(** [RequestParams{}], the zero value. *)
Definition zero : RequestParams := mk "" [] None None None None.

Definition set_Text (v : string) (r : RequestParams) : RequestParams :=
  mk v (Attachments r) (Channel r) (Username r) (EmojiIcon r) (IconURL r).
Definition set_Attachments (v : list Attachment.AttachmentItemModel)
  (r : RequestParams) : RequestParams :=
  mk (Text r) v (Channel r) (Username r) (EmojiIcon r) (IconURL r).
Definition set_Channel (v : option string) (r : RequestParams) : RequestParams :=
  mk (Text r) (Attachments r) v (Username r) (EmojiIcon r) (IconURL r).
Definition set_Username (v : option string) (r : RequestParams) : RequestParams :=
  mk (Text r) (Attachments r) (Channel r) v (EmojiIcon r) (IconURL r).
Definition set_EmojiIcon (v : option string) (r : RequestParams) : RequestParams :=
  mk (Text r) (Attachments r) (Channel r) (Username r) v (IconURL r).
Definition set_IconURL (v : option string) (r : RequestParams) : RequestParams :=
  mk (Text r) (Attachments r) (Channel r) (Username r) (EmojiIcon r) v.

End Request.

Import Request(RequestParams).
Import Attachment(AttachmentItemModel).

(** ** What [json.Marshal] writes for the payload types

    Members follow the order of the struct fields and carry the names of
    the tags.  A field tagged [omitempty] is left out when it is empty (a
    string of length zero, a slice of length zero); a pointer without
    [omitempty] is always written, as [null] when it is nil. *)

Definition marshal_pointer (p : option string) : json.value :=
  match p with
  | None => json.Null
  | Some s => json.Str s
  end.

Definition marshal_AttachmentItemModel (a : AttachmentItemModel) : json.value :=
  json.Obj
    ([("fallback", json.Str (Attachment.Fallback a));
      ("text", json.Str (Attachment.Text a))]
     ++ (if str_eqb (Attachment.Color a) "" then []
         else [("color", json.Str (Attachment.Color a))])).

Definition members_RequestParams (r : RequestParams) : list (string * json.value) :=
  [("text", json.Str (Request.Text r))]
  ++ (match Request.Attachments r with
      | [] => []
      | l => [("attachments", json.Arr (List.map marshal_AttachmentItemModel l))]
      end)
  ++ [("channel", marshal_pointer (Request.Channel r));
      ("username", marshal_pointer (Request.Username r));
      ("icon_emoji", marshal_pointer (Request.EmojiIcon r));
      ("icon_url", marshal_pointer (Request.IconURL r))].

Definition marshal_RequestParams (r : RequestParams) : json.value :=
  json.Obj (members_RequestParams r).

(** [json.Marshal(reqParams)]: the bytes, or an error.  No value of type
    [RequestParams] makes the encoder fail. *)
Definition json_Marshal (r : RequestParams) : string + error :=
  inl (json.render (marshal_RequestParams r)).

(** ** Standard output and process exit *)

(** An operand of [fmt.Println]: a plain string, or one wrapped by
    [colorstring.Yellow] or [colorstring.Red]. *)
Inductive text : Type :=
| Plain (s : string)
| Yellow (s : string)
| Red (s : string).

Inductive event : Type :=
| Println (operands : list text)
| PrintfParameters (reqParams : RequestParams).
  (* fmt.Printf("Parameters: %#v\n", reqParams) *)

Inductive outcome (A : Type) : Type :=
| Returns (a : A)
| Exits (code : Z).

Arguments Returns {A} a.
Arguments Exits {A} code.

(** A computation: what it printed, and how it ended. *)
Definition M (A : Type) : Type := list event * outcome A.

#[global] Instance M_ret : MRet M := fun A a => ([], Returns a).

#[global] Instance M_bind : MBind M := fun A B f m =>
  match m with
  | (out, Returns a) => let '(out', r) := f a in ((out ++ out')%list, r)
  | (out, Exits code) => (out, Exits code)
  end.

Definition fmt_Println (operands : list text) : M unit :=
  ([Println operands], Returns tt).

Definition fmt_Printf_Parameters (reqParams : RequestParams) : M unit :=
  ([PrintfParameters reqParams], Returns tt).

Definition os_Exit {A : Type} (code : Z) : M A := ([], Exits code).

(** ** CreatePayloadParam (lines 130-219) *)

(** The local variables of [CreatePayloadParam] that hold finalized
    values. *)
Record locals : Type := mkLocals {
  msgColor : string;
  msgText : string;
  reqParams : RequestParams
}.

(** Lines 132-201: the color and the text are chosen, the formatting mode
    fills the text or the attachment, and the four optional fields are
    assigned.  An unknown formatting mode ends the process with status 1. *)
Definition assignRequestParams (configs : ConfigsModel) : M locals :=
  (* - required *)
  let msgColor := Color configs in
  msgColor ←
    (if IsBuildFailed configs then
       if str_eqb (ColorOnError configs) "" then
         fmt_Println [Yellow " (i) Build failed but no color_on_error defined, using default."] ;;
         mret msgColor
       else mret (ColorOnError configs)
     else mret msgColor);
  let msgText := Message configs in
  msgText ←
    (if IsBuildFailed configs then
       if str_eqb (MessageOnError configs) "" then
         fmt_Println [Yellow " (i) Build failed but no message_on_error defined, using default."] ;;
         mret msgText
       else mret (MessageOnError configs)
     else mret msgText);

  let reqParams := Request.zero in
  reqParams ←
    (if str_eqb (FormattingMode configs) formattingModeAttachment then
       mret (Request.set_Attachments [Attachment.mk msgText msgText msgColor] reqParams)
     else if str_eqb (FormattingMode configs) formattingModeText then
       mret (Request.set_Text msgText reqParams)
     else
       fmt_Println [Red "Invalid formatting mode:"; Plain (FormattingMode configs)] ;;
       os_Exit 1);

  (* - optional *)
  let reqChannel := Channel configs in
  let reqParams :=
    if negb (str_eqb reqChannel "") then Request.set_Channel (Some reqChannel) reqParams
    else reqParams in
  let reqUsername := FromUsername configs in
  let reqParams :=
    if negb (str_eqb reqUsername "") then Request.set_Username (Some reqUsername) reqParams
    else reqParams in
  reqParams ←
    (if IsBuildFailed configs then
       if str_eqb (FromUsernameOnError configs) "" then
         fmt_Println [Yellow " (i) Build failed but no from_username_on_error defined, using default."] ;;
         mret reqParams
       else mret (Request.set_Username (Some (FromUsernameOnError configs)) reqParams)
     else mret reqParams);

  let reqEmojiIcon := Emoji configs in
  let reqParams :=
    if negb (str_eqb reqEmojiIcon "") then Request.set_EmojiIcon (Some reqEmojiIcon) reqParams
    else reqParams in
  reqParams ←
    (if IsBuildFailed configs then
       if str_eqb (EmojiOnError configs) "" then
         fmt_Println [Yellow " (i) Build failed but no emoji_on_error defined, using default."] ;;
         mret reqParams
       else mret (Request.set_EmojiIcon (Some (EmojiOnError configs)) reqParams)
     else mret reqParams);

  let reqIconURL := IconURL configs in
  let reqParams :=
    if negb (str_eqb reqIconURL "") then Request.set_IconURL (Some reqIconURL) reqParams
    else reqParams in
  reqParams ←
    (if IsBuildFailed configs then
       if str_eqb (IconURLOnError configs) "" then
         fmt_Println [Yellow " (i) Build failed but no icon_url_on_error defined, using default."] ;;
         mret reqParams
       else mret (Request.set_IconURL (Some (IconURLOnError configs)) reqParams)
     else mret reqParams);
  mret (mkLocals msgColor msgText reqParams).

(** Lines 202-205: if Icon URL defined ignore the emoji input. *)
Definition ignoreEmoji (reqParams : RequestParams) : RequestParams :=
  match Request.IconURL reqParams with
  | Some _ => Request.set_EmojiIcon None reqParams
  | None => reqParams
  end.

(** The whole function, over the serializer it calls at line 212.  Both
    results of the function are kept: the string, and the error, which is
    [None] for nil. *)
Definition CreatePayloadParam_with (Marshal : RequestParams -> string + error)
  (configs : ConfigsModel) : M (string * option error) :=
  l ← assignRequestParams configs;
  let reqParams := ignoreEmoji (reqParams l) in
  (if IsDebugMode configs then fmt_Printf_Parameters reqParams else mret tt) ;;
  (* JSON serialize the request params *)
  match Marshal reqParams with
  | inr err => mret ("", None)
  | inl reqParamsJSONBytes =>
    let reqParamsJSONString := reqParamsJSONBytes in
    mret (reqParamsJSONString, None)
  end.

Definition CreatePayloadParam (configs : ConfigsModel) : M (string * option error) :=
  CreatePayloadParam_with json_Marshal configs.

(** The value of [reqParams] when line 212 is reached, if it is reached. *)
Definition builtRequestParams (configs : ConfigsModel) : option RequestParams :=
  match assignRequestParams configs with
  | (_, Returns l) => Some (ignoreEmoji (reqParams l))
  | (_, Exits _) => None
  end.

(** ** The specification's vocabulary *)

(** The override rule: the on-error variant if and only if the build failed
    and that variant is not empty, the normal variant otherwise. *)
Definition override_rule (failed : bool) (onError normal : string) : string :=
  if failed && negb (str_eqb onError "") then onError else normal.

(** An optional field: absent when the finalized value is empty. *)
Definition present (s : string) : option string :=
  if str_eqb s "" then None else Some s.

(** The notice printed when the build failed and an on-error variant is
    missing. *)
Definition notice (failed : bool) (onError msg : string) : list event :=
  if failed && str_eqb onError "" then [Println [Yellow msg]] else [].

Definition recognized (mode : string) : Prop :=
  mode = formattingModeText \/ mode = formattingModeAttachment.

Definition finalColor (c : ConfigsModel) : string :=
  override_rule (IsBuildFailed c) (ColorOnError c) (Color c).
Definition finalText (c : ConfigsModel) : string :=
  override_rule (IsBuildFailed c) (MessageOnError c) (Message c).
Definition finalUsername (c : ConfigsModel) : string :=
  override_rule (IsBuildFailed c) (FromUsernameOnError c) (FromUsername c).
Definition finalEmoji (c : ConfigsModel) : string :=
  override_rule (IsBuildFailed c) (EmojiOnError c) (Emoji c).
Definition finalIconURL (c : ConfigsModel) : string :=
  override_rule (IsBuildFailed c) (IconURLOnError c) (IconURL c).

Definition requiredNotices (c : ConfigsModel) : list event :=
  notice (IsBuildFailed c) (ColorOnError c)
    " (i) Build failed but no color_on_error defined, using default."
  ++ notice (IsBuildFailed c) (MessageOnError c)
       " (i) Build failed but no message_on_error defined, using default.".

Definition optionalNotices (c : ConfigsModel) : list event :=
  notice (IsBuildFailed c) (FromUsernameOnError c)
    " (i) Build failed but no from_username_on_error defined, using default."
  ++ notice (IsBuildFailed c) (EmojiOnError c)
       " (i) Build failed but no emoji_on_error defined, using default."
  ++ notice (IsBuildFailed c) (IconURLOnError c)
       " (i) Build failed but no icon_url_on_error defined, using default.".

(** The formatting branch, by mode. *)
Definition formatted (c : ConfigsModel) : RequestParams :=
  if str_eqb (FormattingMode c) formattingModeAttachment
  then Request.mk "" [Attachment.mk (finalText c) (finalText c) (finalColor c)]
         None None None None
  else Request.mk (finalText c) [] None None None None.

(** The validation of section 4.1, as an ordered list of checks of which
    the first failing one decides. *)
Fixpoint first_failing (checks : list (bool * error)) : option error :=
  match checks with
  | [] => None
  | (true, e) :: _ => Some e
  | (false, _) :: rest => first_failing rest
  end.

Definition validation_checks (c : ConfigsModel) : list (bool * error) :=
  [ (str_eqb (WebhookURL c) "", errNoWebhookURL);
    (str_eqb (Message c) "", errNoMessage);
    (str_eqb (Color c) "", errNoColor);
    (str_eqb (FormattingMode c) "", errNoFormattingMode);
    (negb (str_eqb (FormattingMode c) formattingModeText
           || str_eqb (FormattingMode c) formattingModeAttachment),
     errInvalidFormattingMode (FormattingMode c)) ].

(** The local variables at line 202, for a recognized formatting mode. *)
Definition assigned (c : ConfigsModel) : locals :=
  mkLocals (finalColor c) (finalText c)
    (Request.mk (Request.Text (formatted c)) (Request.Attachments (formatted c))
       (present (Channel c)) (present (finalUsername c))
       (present (finalEmoji c)) (present (finalIconURL c))).

(** What debug mode prints at line 208. *)
Definition debugOutput (c : ConfigsModel) (r : RequestParams) : list event :=
  if IsDebugMode c then [PrintfParameters r] else [].

(** ** Settings used as examples *)

(** mode [text], message [Build OK], color [good], build succeeded, every
    optional input empty. *)
Definition exampleBuildOK : ConfigsModel :=
  mkConfigs "https://hooks.slack.com/services/T/B/X" "" "" "" "Build OK" ""
    "text" "good" "" "" "" "" "" false false.

(** A failed build in attachment mode with every on-error variant set, an
    emoji and an icon URL. *)
Definition exampleFailed : ConfigsModel :=
  mkConfigs "https://hooks.slack.com/services/T/B/X" "#builds" "ci" "ci-alert"
    "Build OK" "Build FAILED" "attachment" "good" "danger"
    ":rocket:" ":boom:" "https://example.com/ok.png" "https://example.com/fail.png"
    false true.

(** A successful build, in text mode, that has all on-error variants set. *)
Definition exampleSucceeded : ConfigsModel :=
  mkConfigs "https://hooks.slack.com/services/T/B/X" "#builds" "ci" "ci-alert"
    "Build OK" "Build FAILED" "text" "good" "danger"
    ":rocket:" ":boom:" "" "https://example.com/fail.png"
    true false.

(** Settings whose message holds markup, an ampersand and a line break. *)
Definition exampleMarkup : ConfigsModel :=
  mkConfigs "https://hooks.slack.com/services/T/B/X" "" "" ""
    (String (ascii_of_N 10) "<b>fast & green</b>") ""
    "text" "good" "" "" "" "" "" false false.

(** Settings with a formatting mode the code does not know. *)
Definition exampleUnknownMode : ConfigsModel :=
  mkConfigs "https://hooks.slack.com/services/T/B/X" "" "" "" "Build OK" ""
    "markdown" "good" "" "" "" "" "" false true.

(** A serializer that always fails. *)
Definition failingMarshal (r : RequestParams) : string + error :=
  inr "json: unsupported value".

(** The text the specification gives for [exampleBuildOK], and the text
    the code returns for it. *)
Definition bareTextPayload : string :=
  "{" +:+ json.quoted "text" +:+ ":" +:+ json.quoted "Build OK" +:+ "}".

Definition nullFieldsPayload : string :=
  "{" +:+ json.quoted "text" +:+ ":" +:+ json.quoted "Build OK"
  +:+ "," +:+ json.quoted "channel" +:+ ":null"
  +:+ "," +:+ json.quoted "username" +:+ ":null"
  +:+ "," +:+ json.quoted "icon_emoji" +:+ ":null"
  +:+ "," +:+ json.quoted "icon_url" +:+ ":null}".

(** ** print (lines 64-85) and main (lines 221-278)

    [print] and [main] print operands that [CreatePayloadParam] does not
    (booleans, errors, blue and green text), and [main] sends the request.
    Their effects are the lines [CreatePayloadParam] printed, their own
    lines, and the call of [http.PostForm], in the order of execution.
    An effect records a call of [fmt.Println] with its operands, not the
    bytes the call writes: [fmt.Println] joins the operands with a space
    and adds a line break, so different calls can write the same bytes,
    and nothing below is a statement about those bytes. *)

Inductive operand : Type :=
| Of (t : text)
| Blue (s : string)
| Green (s : string)
| Bool (b : bool)
| Err (e : error).

Inductive effect : Type :=
| Stdout (e : event)
| Fmt_Println (operands : list operand)
| Http_PostForm (url : string) (data : gmap string (list string)).

Definition Proc (A : Type) : Type := list effect * outcome A.

#[global] Instance Proc_ret : MRet Proc := fun A a => ([], Returns a).

#[global] Instance Proc_bind : MBind Proc := fun A B f m =>
  match m with
  | (out, Returns a) => let '(out', r) := f a in ((out ++ out')%list, r)
  | (out, Exits code) => (out, Exits code)
  end.

Definition println (operands : list operand) : Proc unit :=
  ([Fmt_Println operands], Returns tt).

Definition exit {A : Type} (code : Z) : Proc A := ([], Exits code).

(** A call of a function modelled in [M]. *)
Definition call {A : Type} (m : M A) : Proc A :=
  (List.map Stdout (fst m), snd m).

(** [configs.print()]. *)
Definition print (configs : ConfigsModel) : Proc unit :=
  println [Of (Plain "")] ;;
  println [Blue "Slack configs:"] ;;
  println [Of (Plain " - WebhookURL:"); Of (Plain (WebhookURL configs))] ;;
  println [Of (Plain " - Channel:"); Of (Plain (Channel configs))] ;;
  println [Of (Plain " - FromUsername:"); Of (Plain (FromUsername configs))] ;;
  println [Of (Plain " - FromUsernameOnError:"); Of (Plain (FromUsernameOnError configs))] ;;
  println [Of (Plain " - Message:"); Of (Plain (Message configs))] ;;
  println [Of (Plain " - MessageOnError:"); Of (Plain (MessageOnError configs))] ;;
  println [Of (Plain " - FormattingMode:"); Of (Plain (FormattingMode configs))] ;;
  println [Of (Plain " - Color:"); Of (Plain (Color configs))] ;;
  println [Of (Plain " - ColorOnError:"); Of (Plain (ColorOnError configs))] ;;
  println [Of (Plain " - Emoji:"); Of (Plain (Emoji configs))] ;;
  println [Of (Plain " - EmojiOnError:"); Of (Plain (EmojiOnError configs))] ;;
  println [Of (Plain " - IconURL:"); Of (Plain (IconURL configs))] ;;
  println [Of (Plain " - IconURLOnError:"); Of (Plain (IconURLOnError configs))] ;;
  println [Of (Plain "")] ;;
  println [Blue "Other configs:"] ;;
  println [Of (Plain " - IsDebugMode:"); Bool (IsDebugMode configs)] ;;
  println [Of (Plain " - IsBuildFailed:"); Bool (IsBuildFailed configs)] ;;
  println [Of (Plain "")].

(** What [main] reads of the response: the status code, and the bytes
    [ioutil.ReadAll] got from the body (its error is not looked at). *)
Record Response : Type := mkResponse {
  StatusCode : Z;
  Body : string
}.

(** [http.PostForm(url, data)], for the client given as [PostForm]: the
    call is an effect, and its result is a response or an error. *)
Definition http_PostForm (PostForm : string -> gmap string (list string) -> Response + error)
  (url : string) (data : gmap string (list string)) : Proc (Response + error) :=
  ([Http_PostForm url data], Returns (PostForm url data)).

(** [main], in the environment [env] and with the HTTP client
    [PostForm]. *)
Definition main (env : gmap string string)
  (PostForm : string -> gmap string (list string) -> Response + error) : Proc unit :=
  let configs := createConfigsModelFromEnvs env in
  print configs ;;
  match validate configs with
  | Some err =>
    println [] ;;
    println [Of (Red "Issue with input:"); Err err] ;;
    println [] ;;
    exit 1
  | None => mret tt
  end ;;
  (* request URL *)
  let requestURL := WebhookURL configs in
  (* request parameters *)
  res ← call (CreatePayloadParam configs);
  let reqParamsJSONString := fst res in
  match snd res with
  | Some err =>
    println [Of (Red "Failed to create JSON payload:"); Err err] ;;
    exit 1
  | None => mret tt
  end ;;
  (if IsDebugMode configs then
     println [] ;;
     println [Of (Plain "JSON payload: "); Of (Plain reqParamsJSONString)]
   else mret tt) ;;
  (* send request *)
  sent ← http_PostForm PostForm requestURL {[ "payload" := [reqParamsJSONString] ]};
  resp ← match sent with
         | inr err =>
           println [Of (Red "Failed to send the request:"); Err err] ;;
           exit 1
         | inl resp => mret resp
         end;
  (* process the response *)
  let bodyStr := Body resp in
  (if negb (StatusCode resp =? 200) then
     println [] ;;
     println [Of (Red "Request failed")] ;;
     println [Of (Plain "Response from Slack: "); Of (Plain bodyStr)] ;;
     println [] ;;
     exit 1
   else mret tt) ;;
  (if IsDebugMode configs then
     println [] ;;
     println [Of (Plain "Response from Slack: "); Of (Plain bodyStr)]
   else mret tt) ;;
  println [] ;;
  println [Green "Slack message successfully sent! 🚀"] ;;
  println [] ;;
  exit 0.

(** The requests of a run, in order. *)
Definition requests (trace : list effect) : list (string * gmap string (list string)) :=
  omap (fun e => match e with
                 | Http_PostForm url data => Some (url, data)
                 | _ => None
                 end) trace.

(** What [main] does once the request has been sent (lines 251-277): the
    lines it prints and its exit status. *)
Definition afterRequest (debug : bool) (sent : Response + error) : list effect * Z :=
  match sent with
  | inr err => ([Fmt_Println [Of (Red "Failed to send the request:"); Err err]], 1)
  | inl resp =>
    if StatusCode resp =? 200 then
      (app (if debug
            then [Fmt_Println [];
                  Fmt_Println [Of (Plain "Response from Slack: "); Of (Plain (Body resp))]]
            else [])
           [Fmt_Println [];
            Fmt_Println [Green "Slack message successfully sent! 🚀"];
            Fmt_Println []], 0)
    else
      ([Fmt_Println [];
        Fmt_Println [Of (Red "Request failed")];
        Fmt_Println [Of (Plain "Response from Slack: "); Of (Plain (Body resp))];
        Fmt_Println []], 1)
  end.

(** The payload [main] sends for validated settings. *)
Definition sentPayload (c : ConfigsModel) : string :=
  json.render (marshal_RequestParams (ignoreEmoji (reqParams (assigned c)))).

(** ** Bytes of a string *)

(** Every byte of the string satisfies [P]. *)
Fixpoint all_bytes (P : N -> bool) (s : string) : bool :=
  match s with
  | EmptyString => true
  | String c t => P (N_of_ascii c) && all_bytes P t
  end.

(** A byte that is not below 0x20 (so none of the ASCII control characters
    0x00-0x1F, among them line feed and carriage return) and is none of
    the characters [<], [>] and [&].  The byte 0x7F and the bytes of
    multi-byte runes are admitted. *)
Definition wireSafe (b : N) : bool :=
  (0x20 <=? b)%N && negb ((b =? 0x3C)%N || (b =? 0x3E)%N || (b =? 0x26)%N).

(** ** Settings with one part replaced *)

Definition set_IsDebugMode (b : bool) (c : ConfigsModel) : ConfigsModel :=
  mkConfigs (WebhookURL c) (Channel c) (FromUsername c) (FromUsernameOnError c)
    (Message c) (MessageOnError c) (FormattingMode c) (Color c) (ColorOnError c)
    (Emoji c) (EmojiOnError c) (IconURL c) (IconURLOnError c)
    b (IsBuildFailed c).

Definition set_IsBuildFailed (b : bool) (c : ConfigsModel) : ConfigsModel :=
  mkConfigs (WebhookURL c) (Channel c) (FromUsername c) (FromUsernameOnError c)
    (Message c) (MessageOnError c) (FormattingMode c) (Color c) (ColorOnError c)
    (Emoji c) (EmojiOnError c) (IconURL c) (IconURLOnError c)
    (IsDebugMode c) b.

Definition set_Colors (color onError : string) (c : ConfigsModel) : ConfigsModel :=
  mkConfigs (WebhookURL c) (Channel c) (FromUsername c) (FromUsernameOnError c)
    (Message c) (MessageOnError c) (FormattingMode c) color onError
    (Emoji c) (EmojiOnError c) (IconURL c) (IconURLOnError c)
    (IsDebugMode c) (IsBuildFailed c).

(** The names of the variables [createConfigsModelFromEnvs] reads. *)
Definition inputNames : list string :=
  [ "webhook_url"; "channel"; "from_username"; "from_username_on_error";
    "message"; "message_on_error"; "formatting_mode"; "emoji"; "emoji_on_error";
    "color"; "color_on_error"; "icon_url"; "icon_url_on_error";
    "is_debug_mode"; "STEPLIB_BUILD_STATUS" ].

(** An HTTP client that answers every request with the given response. *)
Definition respondWith (status : Z) (body : string)
  (url : string) (data : gmap string (list string)) : Response + error :=
  inl (mkResponse status body).

(** An HTTP client that cannot connect. *)
Definition unreachableHost (url : string) (data : gmap string (list string))
  : Response + error :=
  inr "dial tcp: connection refused".

(** An environment for a successful build in text mode. *)
Definition exampleEnv : gmap string string :=
  <["webhook_url" := "https://hooks.slack.com/services/T/B/X"]>
  (<["message" := "Build OK"]>
  (<["color" := "good"]>
  (<["formatting_mode" := "text"]>
  (<["STEPLIB_BUILD_STATUS" := "0"]> ∅)))).

(** * Properties *)

(** ** Strings and the output monad *)

Lemma str_eqb_eq (a b : string) : str_eqb a b = true <-> a = b.
Proof. unfold str_eqb. apply bool_decide_eq_true. Qed.

Lemma str_eqb_neq (a b : string) : str_eqb a b = false <-> a <> b.
Proof. unfold str_eqb. apply bool_decide_eq_false. Qed.

Lemma str_eqb_refl (a : string) : str_eqb a a = true.
Proof. now apply str_eqb_eq. Qed.

(** One application of the override pattern of the code: the notice is
    printed exactly when the build failed without an on-error variant, and
    the on-error branch is taken exactly when the rule says so. *)
Lemma override_step {A : Type} (failed : bool) (onError msg : string) (keep : A)
  (use : A) :
  (if failed then
     if str_eqb onError "" then fmt_Println [Yellow msg] ;; mret keep
     else mret use
   else mret keep)
  = (notice failed onError msg,
     Returns (if failed && negb (str_eqb onError "") then use else keep)).
Proof.
  unfold notice. destruct failed; simpl; [|reflexivity].
  destruct (str_eqb onError ""); reflexivity.
Qed.

Lemma bind_run {A B : Type} (m : M A) (f : A -> M B) (out out' : list event)
  (a : A) (r : outcome B) :
  m = (out, Returns a) -> f a = (out', r) -> mbind f m = ((out ++ out')%list, r).
Proof. intros -> Hf. unfold mbind, M_bind. rewrite Hf. reflexivity. Qed.

Lemma bind_stop {A B : Type} (m : M A) (f : A -> M B) (out : list event)
  (code : Z) :
  m = (out, Exits code) -> mbind f m = (out, Exits code).
Proof. intros ->. reflexivity. Qed.

(** A pointer field of the code: set from the normal value when that is not
    empty, then overwritten by the on-error value when the rule applies. *)
Lemma pointer_override (failed : bool) (onError normal : string) :
  (if failed && negb (str_eqb onError "") then Some onError
   else if negb (str_eqb normal "") then Some normal else None)
  = present (override_rule failed onError normal).
Proof.
  unfold present, override_rule.
  destruct failed; simpl.
  - destruct (str_eqb onError "") eqn:E; simpl.
    + destruct (str_eqb normal ""); reflexivity.
    + rewrite E. reflexivity.
  - destruct (str_eqb normal ""); reflexivity.
Qed.

Section Assign.

Variable c : ConfigsModel.

(** The formatting branch for a recognized mode (lines 150-156). *)
Lemma formatting_recognized (t col : string) :
  recognized (FormattingMode c) ->
  (if str_eqb (FormattingMode c) formattingModeAttachment then
     mret (Request.set_Attachments [Attachment.mk t t col] Request.zero)
   else if str_eqb (FormattingMode c) formattingModeText then
     mret (Request.set_Text t Request.zero)
   else
     fmt_Println [Red "Invalid formatting mode:"; Plain (FormattingMode c)] ;;
     os_Exit 1)
  = ([], Returns (if str_eqb (FormattingMode c) formattingModeAttachment
                  then Request.mk "" [Attachment.mk t t col] None None None None
                  else Request.mk t [] None None None None)).
Proof.
  intros [H | H]; rewrite H; reflexivity.
Qed.

(** The formatting branch for any other mode (lines 157-160). *)
Lemma formatting_unrecognized (t col : string) :
  ~ recognized (FormattingMode c) ->
  (if str_eqb (FormattingMode c) formattingModeAttachment then
     mret (Request.set_Attachments [Attachment.mk t t col] Request.zero)
   else if str_eqb (FormattingMode c) formattingModeText then
     mret (Request.set_Text t Request.zero)
   else
     fmt_Println [Red "Invalid formatting mode:"; Plain (FormattingMode c)] ;;
     os_Exit 1)
  = ([Println [Red "Invalid formatting mode:"; Plain (FormattingMode c)]],
     Exits 1 : outcome RequestParams).
Proof.
  intros H. unfold recognized in H.
  destruct (str_eqb (FormattingMode c) formattingModeAttachment) eqn:Ea.
  { apply str_eqb_eq in Ea. tauto. }
  destruct (str_eqb (FormattingMode c) formattingModeText) eqn:Et.
  { apply str_eqb_eq in Et. tauto. }
  reflexivity.
Qed.

(** Lines 132-201 for a recognized mode: the function reaches line 202
    with the finalized values in its variables. *)
Lemma assignRequestParams_recognized :
  recognized (FormattingMode c) ->
  assignRequestParams c
  = ((requiredNotices c ++ optionalNotices c)%list, Returns (assigned c)).
Proof.
  intros Hmode. unfold assignRequestParams.
  etransitivity.
  { eapply bind_run; [apply override_step|].
    eapply bind_run; [apply override_step|].
    eapply bind_run; [apply (formatting_recognized _ _ Hmode)|].
    eapply bind_run; [apply override_step|].
    eapply bind_run; [apply override_step|].
    eapply bind_run; [apply override_step|].
    reflexivity. }
  unfold requiredNotices, optionalNotices, assigned.
  rewrite !app_nil_r, !app_nil_l, <- !app_assoc.
  f_equal. f_equal.
  unfold formatted, finalColor, finalText, finalUsername, finalEmoji, finalIconURL.
  rewrite <- !pointer_override.
  unfold override_rule, present.
  destruct (str_eqb (FormattingMode c) formattingModeAttachment);
    destruct (IsBuildFailed c); simpl;
    destruct (str_eqb (Channel c) ""); simpl;
    destruct (str_eqb (FromUsername c) ""); simpl;
    destruct (str_eqb (Emoji c) ""); simpl;
    destruct (str_eqb (IconURL c) ""); simpl;
    try reflexivity;
    destruct (str_eqb (FromUsernameOnError c) ""); simpl;
    destruct (str_eqb (EmojiOnError c) ""); simpl;
    destruct (str_eqb (IconURLOnError c) ""); simpl;
    reflexivity.
Qed.

(** Lines 132-160 for any other mode: the process exits with status 1. *)
Lemma assignRequestParams_unrecognized :
  ~ recognized (FormattingMode c) ->
  assignRequestParams c
  = ((requiredNotices c
      ++ [Println [Red "Invalid formatting mode:"; Plain (FormattingMode c)]])%list,
     Exits 1).
Proof.
  intros Hmode. unfold assignRequestParams.
  etransitivity.
  { eapply bind_run; [apply override_step|].
    eapply bind_run; [apply override_step|].
    eapply bind_stop. apply (formatting_unrecognized _ _ Hmode). }
  unfold requiredNotices. rewrite <- app_assoc. reflexivity.
Qed.

End Assign.

(** ** The payload builder as a whole *)

Lemma builtRequestParams_recognized (c : ConfigsModel) :
  recognized (FormattingMode c) ->
  builtRequestParams c = Some (ignoreEmoji (reqParams (assigned c))).
Proof.
  intros H. unfold builtRequestParams.
  rewrite (assignRequestParams_recognized c H). reflexivity.
Qed.

(** With a recognized mode the function returns: the output is the notices
    followed by the debug line, the string is what the serializer gives, or
    empty when the serializer fails, and the error is nil. *)
Lemma CreatePayloadParam_with_recognized
  (Marshal : RequestParams -> string + error) (c : ConfigsModel) :
  recognized (FormattingMode c) ->
  CreatePayloadParam_with Marshal c
  = ((requiredNotices c ++ optionalNotices c
      ++ debugOutput c (ignoreEmoji (reqParams (assigned c))))%list,
     Returns (match Marshal (ignoreEmoji (reqParams (assigned c))) with
              | inl s => (s, None)
              | inr _ => (EmptyString, None)
              end)).
Proof.
  intros H. unfold CreatePayloadParam_with.
  etransitivity.
  { eapply bind_run; [apply (assignRequestParams_recognized c H)|].
    eapply (bind_run _ _ (debugOutput c _) [] tt
              (Returns (match Marshal (ignoreEmoji (reqParams (assigned c))) with
                        | inl s => (s, None)
                        | inr _ => (EmptyString, None)
                        end))).
    - unfold debugOutput. destruct (IsDebugMode c); reflexivity.
    - destruct (Marshal _); reflexivity. }
  rewrite app_nil_r, <- app_assoc. reflexivity.
Qed.

(** With any other mode the process exits with status 1 before the
    serializer is called. *)
Lemma CreatePayloadParam_with_unrecognized
  (Marshal : RequestParams -> string + error) (c : ConfigsModel) :
  ~ recognized (FormattingMode c) ->
  snd (CreatePayloadParam_with Marshal c) = Exits 1.
Proof.
  intros H. unfold CreatePayloadParam_with.
  erewrite bind_stop; [|apply (assignRequestParams_unrecognized c H)].
  reflexivity.
Qed.

Lemma CreatePayloadParam_recognized (c : ConfigsModel) :
  recognized (FormattingMode c) ->
  snd (CreatePayloadParam c)
  = Returns (json.render (marshal_RequestParams (ignoreEmoji (reqParams (assigned c)))),
             None).
Proof.
  intros H. unfold CreatePayloadParam.
  rewrite (CreatePayloadParam_with_recognized json_Marshal c H). reflexivity.
Qed.

(** ** Validation *)

Lemma validate_None_inv (c : ConfigsModel) :
  validate c = None ->
  WebhookURL c <> "" /\ Message c <> "" /\ Color c <> ""
  /\ FormattingMode c <> "" /\ recognized (FormattingMode c).
Proof.
  unfold validate, recognized.
  destruct (str_eqb (WebhookURL c) "") eqn:Ew; [discriminate|].
  destruct (str_eqb (Message c) "") eqn:Em; [discriminate|].
  destruct (str_eqb (Color c) "") eqn:Ec; [discriminate|].
  destruct (str_eqb (FormattingMode c) formattingModeText) eqn:Et; simpl.
  - intros _. apply str_eqb_eq in Et.
    repeat split; try (now apply str_eqb_neq); [|now left].
    rewrite Et. discriminate.
  - destruct (str_eqb (FormattingMode c) formattingModeAttachment) eqn:Ea.
    + intros _. apply str_eqb_eq in Ea.
      repeat split; try (now apply str_eqb_neq); [|now right].
      rewrite Ea. discriminate.
    + destruct (str_eqb (FormattingMode c) ""); discriminate.
Qed.

Lemma finalColor_nonempty (c : ConfigsModel) :
  Color c <> "" -> finalColor c <> "".
Proof.
  unfold finalColor, override_rule.
  destruct (IsBuildFailed c); simpl; [|tauto].
  destruct (str_eqb (ColorOnError c) "") eqn:E; simpl; [tauto|].
  intros _. now apply str_eqb_neq.
Qed.

(** C6: [validate] returns the error of the first failing check, in the
    order webhook URL empty, message empty, color empty, formatting mode
    empty, formatting mode not one of [text] and [attachment]; it returns
    nil exactly when all five checks pass; the five errors are pairwise
    distinct, whatever the offending mode is, and the error for an
    unknown mode ends with the offending value. *)
Theorem validate_first_failing_check (c : ConfigsModel) :
  validate c = first_failing (validation_checks c)
  /\ (validate c = None <->
      WebhookURL c <> "" /\ Message c <> "" /\ Color c <> ""
      /\ FormattingMode c <> "" /\ recognized (FormattingMode c))
  /\ (forall mode : string,
        NoDup [errNoWebhookURL; errNoMessage; errNoColor; errNoFormattingMode;
               errInvalidFormattingMode mode])
  /\ errInvalidFormattingMode (FormattingMode c)
     = "Invalid FormattingMode: " +:+ FormattingMode c.
Proof.
  split; [|split; [|split]].
  - unfold validate, validation_checks, first_failing.
    destruct (str_eqb (WebhookURL c) ""); [reflexivity|].
    destruct (str_eqb (Message c) ""); [reflexivity|].
    destruct (str_eqb (Color c) ""); [reflexivity|].
    destruct (str_eqb (FormattingMode c) "") eqn:E.
    + apply str_eqb_eq in E. rewrite E. reflexivity.
    + destruct (str_eqb (FormattingMode c) formattingModeText
                || str_eqb (FormattingMode c) formattingModeAttachment);
        reflexivity.
  - split; [apply validate_None_inv|].
    intros (Hw & Hm & Hc & _ & Hr). unfold validate.
    apply str_eqb_neq in Hw, Hm, Hc. rewrite Hw, Hm, Hc.
    destruct Hr as [Hr | Hr]; rewrite Hr; reflexivity.
  - intros mode.
    repeat (apply NoDup_cons_2;
            [rewrite list_elem_of_In; cbn; intros H;
             repeat destruct H as [H | H]; try discriminate H; exact H|]).
    apply NoDup_nil_2.
  - reflexivity.
Qed.

(** ** The build-failed flag *)

(** C7: the build-failed flag read from the environment is true unless the
    value of [STEPLIB_BUILD_STATUS] is exactly [0]: it is false if and only
    if the variable is set to [0]; setting the variable to [v] gives the
    flag [v != 0]; and with the variable unset, or set to the empty
    string, the flag is true. *)
Theorem build_failed_unless_status_zero (env : gmap string string) :
  (IsBuildFailed (createConfigsModelFromEnvs env) = false
   <-> env !! "STEPLIB_BUILD_STATUS" = Some "0")
  /\ (IsBuildFailed (createConfigsModelFromEnvs env) = true
      <-> os_Getenv env "STEPLIB_BUILD_STATUS" <> "0")
  /\ (forall v : string,
        IsBuildFailed (createConfigsModelFromEnvs (<["STEPLIB_BUILD_STATUS" := v]> env))
        = negb (str_eqb v "0"))
  /\ IsBuildFailed (createConfigsModelFromEnvs (delete "STEPLIB_BUILD_STATUS" env)) = true
  /\ IsBuildFailed (createConfigsModelFromEnvs (<["STEPLIB_BUILD_STATUS" := ""]> env)) = true.
Proof.
  cbn [createConfigsModelFromEnvs IsBuildFailed]. unfold os_Getenv.
  split; [|split; [|split; [|split]]].
  - rewrite negb_false_iff, str_eqb_eq.
    destruct (env !! "STEPLIB_BUILD_STATUS") as [v|]; simpl.
    + split; congruence.
    + split; discriminate.
  - rewrite negb_true_iff, str_eqb_neq. reflexivity.
  - intros v. rewrite lookup_insert_eq. reflexivity.
  - rewrite lookup_delete_eq. reflexivity.
  - rewrite lookup_insert_eq. reflexivity.
Qed.

(** ** The formatting branch after validation *)

(** C10: when [validate] returned nil, the formatting mode is [text] or
    [attachment] and not both, so exactly one of the two formatting
    branches is taken; the function reaches line 202, it does not print
    the invalid-mode line, and whatever the serializer does it returns
    instead of ending the process. *)
Theorem abort_branch_unreachable_after_validate (c : ConfigsModel) :
  validate c = None ->
  ((FormattingMode c = formattingModeAttachment
    /\ FormattingMode c <> formattingModeText)
   \/ (FormattingMode c = formattingModeText
       /\ FormattingMode c <> formattingModeAttachment))
  /\ (exists out l, assignRequestParams c = (out, Returns l))
  /\ (forall Marshal : RequestParams -> string + error,
        (exists res, snd (CreatePayloadParam_with Marshal c) = Returns res)
        /\ (forall code, snd (CreatePayloadParam_with Marshal c) <> Exits code)
        /\ Println [Red "Invalid formatting mode:"; Plain (FormattingMode c)]
           ∉ fst (CreatePayloadParam_with Marshal c)).
Proof.
  intros Hv. destruct (validate_None_inv c Hv) as (_ & _ & _ & _ & Hr).
  split; [|split].
  - destruct Hr as [Hr | Hr]; rewrite Hr; [right | left]; split;
      try reflexivity; discriminate.
  - eexists _, _. apply (assignRequestParams_recognized c Hr).
  - intros Marshal.
    rewrite (CreatePayloadParam_with_recognized Marshal c Hr). cbn [fst snd].
    split; [eexists; reflexivity|]. split; [discriminate|].
    unfold requiredNotices, optionalNotices, notice, debugOutput.
    rewrite !elem_of_app.
    destruct (IsBuildFailed c); cbn [andb];
      repeat match goal with
             | |- context [if ?b then _ else _] => destruct b
             end;
      rewrite ?elem_of_cons, ?elem_of_nil; intros H;
      repeat destruct H as [H | H]; solve [discriminate H | exact H].
Qed.

(** ** Serialization errors *)

(** C8: whatever serializer is called at line 212, if it fails on the
    request parameters the function returns the empty string with a nil
    error; and the error the function returns is nil on every input, for
    every serializer. *)
Theorem serialization_error_swallowed
  (Marshal : RequestParams -> string + error) (c : ConfigsModel) :
  (forall (r : RequestParams) (err : error),
     builtRequestParams c = Some r ->
     Marshal r = inr err ->
     snd (CreatePayloadParam_with Marshal c) = Returns (EmptyString, None))
  /\ (forall (s : string) (e : option error),
        snd (CreatePayloadParam_with Marshal c) = Returns (s, e) -> e = None).
Proof.
  destruct (decide (recognized (FormattingMode c))) as [Hr | Hr].
  - rewrite (builtRequestParams_recognized c Hr),
      (CreatePayloadParam_with_recognized Marshal c Hr). cbn [snd].
    split.
    + intros r err Hb HM. apply (inj Some) in Hb.
      rewrite Hb, HM. reflexivity.
    + intros s e. destruct (Marshal _); intros [= _ <-]; reflexivity.
  - rewrite (CreatePayloadParam_with_unrecognized Marshal c Hr).
    unfold builtRequestParams. rewrite (assignRequestParams_unrecognized c Hr).
    split; [discriminate | discriminate].
Qed.

(** ** The finalized request parameters *)

(** Lines 202-205 applied to the variables of line 202: the emoji is kept
    only when no icon URL was finalized. *)
Lemma ignoreEmoji_assigned (c : ConfigsModel) :
  ignoreEmoji (reqParams (assigned c))
  = Request.mk (Request.Text (formatted c)) (Request.Attachments (formatted c))
      (present (Channel c)) (present (finalUsername c))
      (if str_eqb (finalIconURL c) "" then present (finalEmoji c) else None)
      (present (finalIconURL c)).
Proof.
  unfold ignoreEmoji, assigned, present. cbn.
  destruct (str_eqb (finalIconURL c) ""); reflexivity.
Qed.

Lemma override_rule_cases (failed : bool) (onError normal : string) :
  (failed = true /\ onError <> "" -> override_rule failed onError normal = onError)
  /\ (~ (failed = true /\ onError <> "") -> override_rule failed onError normal = normal).
Proof.
  unfold override_rule. destruct failed; simpl.
  - destruct (str_eqb onError "") eqn:E; simpl.
    + apply str_eqb_eq in E. split; tauto.
    + apply str_eqb_neq in E. split; tauto.
  - split; [intros [? _]; discriminate | reflexivity].
Qed.

Section Members.

Variable r : RequestParams.

Lemma member_text :
  json.member "text" (members_RequestParams r) = Some (json.Str (Request.Text r)).
Proof. reflexivity. Qed.

Lemma member_attachments :
  json.member "attachments" (members_RequestParams r)
  = match Request.Attachments r with
    | [] => None
    | l => Some (json.Arr (List.map marshal_AttachmentItemModel l))
    end.
Proof. unfold members_RequestParams. destruct (Request.Attachments r); reflexivity. Qed.

Lemma member_channel :
  json.member "channel" (members_RequestParams r)
  = Some (marshal_pointer (Request.Channel r)).
Proof. unfold members_RequestParams. destruct (Request.Attachments r); reflexivity. Qed.

Lemma member_username :
  json.member "username" (members_RequestParams r)
  = Some (marshal_pointer (Request.Username r)).
Proof. unfold members_RequestParams. destruct (Request.Attachments r); reflexivity. Qed.

Lemma member_icon_emoji :
  json.member "icon_emoji" (members_RequestParams r)
  = Some (marshal_pointer (Request.EmojiIcon r)).
Proof. unfold members_RequestParams. destruct (Request.Attachments r); reflexivity. Qed.

Lemma member_icon_url :
  json.member "icon_url" (members_RequestParams r)
  = Some (marshal_pointer (Request.IconURL r)).
Proof. unfold members_RequestParams. destruct (Request.Attachments r); reflexivity. Qed.

End Members.



(** ** Icon URL before emoji *)

(** C3, as the code has it: when the finalized icon URL is not empty (and
    the formatting mode is recognized), the request parameters that are
    serialized have the icon URL set to it and the emoji pointer nil,
    whatever emoji was resolved.  The returned text still has the member
    [icon_emoji]: its value is [null], never the emoji, and the member
    [icon_url] is the finalized icon URL. *)
Theorem icon_url_drops_emoji (c : ConfigsModel) :
  recognized (FormattingMode c) ->
  finalIconURL c <> "" ->
  exists r,
    builtRequestParams c = Some r
    /\ Request.IconURL r = Some (finalIconURL c)
    /\ Request.EmojiIcon r = None
    /\ snd (CreatePayloadParam c) = Returns (json.render (marshal_RequestParams r), None)
    /\ json.member "icon_url" (members_RequestParams r)
       = Some (json.Str (finalIconURL c))
    /\ json.member "icon_emoji" (members_RequestParams r) = Some json.Null.
Proof.
  intros Hr Hicon. eexists.
  split; [apply (builtRequestParams_recognized c Hr)|].
  rewrite (CreatePayloadParam_recognized c Hr), member_icon_url, member_icon_emoji.
  rewrite ignoreEmoji_assigned. cbn. unfold present.
  apply str_eqb_neq in Hicon. rewrite Hicon.
  repeat split.
Qed.

(** The claim C3 fails as it is worded: for [exampleFailed] the finalized
    icon URL is not empty and an emoji was resolved, and the payload the
    function returns has the member [icon_emoji] next to [icon_url]; it is
    not true that the payload has no emoji-icon field. *)
Lemma emoji_field_still_serialized_counterexample :
  finalIconURL exampleFailed <> ""
  /\ finalEmoji exampleFailed = ":boom:"
  /\ CreatePayloadParam exampleFailed
     = ([],
        Returns
          (json.render
             (json.Obj
                [("text", json.Str "");
                 ("attachments",
                  json.Arr [json.Obj [("fallback", json.Str "Build FAILED");
                                      ("text", json.Str "Build FAILED");
                                      ("color", json.Str "danger")]]);
                 ("channel", json.Str "#builds");
                 ("username", json.Str "ci-alert");
                 ("icon_emoji", json.Null);
                 ("icon_url", json.Str "https://example.com/fail.png")]),
           None))
  /\ ~ (forall r : RequestParams,
          builtRequestParams exampleFailed = Some r ->
          json.member "icon_emoji" (members_RequestParams r) = None).
Proof.
  split; [vm_compute; discriminate|].
  split; [reflexivity|]. split; [reflexivity|].
  intros H. specialize (H _ eq_refl). discriminate H.
Qed.

(** ** The two formatting modes *)

(** C4: for validated settings in [attachment] mode the function reaches
    the serializer with exactly one attachment, whose fallback and text are
    the finalized message and whose color is the finalized color, and with
    an empty top-level text.  Both finalized values are non-empty, so the
    serialized attachment has its three members, and the member [text] of
    the payload is the empty string. *)
Theorem attachment_mode_payload (c : ConfigsModel) :
  validate c = None ->
  FormattingMode c = formattingModeAttachment ->
  exists out l r,
    assignRequestParams c = (out, Returns l)
    /\ msgText l = finalText c
    /\ msgColor l = finalColor c
    /\ builtRequestParams c = Some r
    /\ Request.Attachments r = [Attachment.mk (msgText l) (msgText l) (msgColor l)]
    /\ Request.Text r = ""
    /\ snd (CreatePayloadParam c) = Returns (json.render (marshal_RequestParams r), None)
    /\ json.member "text" (members_RequestParams r) = Some (json.Str "")
    /\ json.member "attachments" (members_RequestParams r)
       = Some (json.Arr [json.Obj [("fallback", json.Str (msgText l));
                                   ("text", json.Str (msgText l));
                                   ("color", json.Str (msgColor l))]]).
Proof.
  intros Hv Hmode.
  destruct (validate_None_inv c Hv) as (_ & _ & Hc & _ & Hr).
  apply finalColor_nonempty, str_eqb_neq in Hc.
  eexists _, _, _.
  split; [apply (assignRequestParams_recognized c Hr)|].
  split; [reflexivity|]. split; [reflexivity|].
  split; [apply (builtRequestParams_recognized c Hr)|].
  rewrite (CreatePayloadParam_recognized c Hr), member_text, member_attachments.
  rewrite ignoreEmoji_assigned. unfold formatted.
  rewrite Hmode, str_eqb_refl. cbn -[str_eqb finalColor finalText].
  unfold marshal_AttachmentItemModel. cbn -[str_eqb finalColor finalText].
  rewrite Hc.
  repeat split.
Qed.

(** C5: for validated settings in [text] mode the function reaches the
    serializer with the top-level text equal to the finalized message and
    with no attachment; the returned text has the member [text] with that
    message and no member [attachments]. *)
Theorem text_mode_payload (c : ConfigsModel) :
  validate c = None ->
  FormattingMode c = formattingModeText ->
  exists out l r,
    assignRequestParams c = (out, Returns l)
    /\ msgText l = finalText c
    /\ builtRequestParams c = Some r
    /\ Request.Text r = msgText l
    /\ Request.Attachments r = []
    /\ snd (CreatePayloadParam c) = Returns (json.render (marshal_RequestParams r), None)
    /\ json.member "text" (members_RequestParams r) = Some (json.Str (msgText l))
    /\ json.member "attachments" (members_RequestParams r) = None.
Proof.
  intros Hv Hmode.
  destruct (validate_None_inv c Hv) as (_ & _ & _ & _ & Hr).
  eexists _, _, _.
  split; [apply (assignRequestParams_recognized c Hr)|].
  split; [reflexivity|].
  split; [apply (builtRequestParams_recognized c Hr)|].
  rewrite (CreatePayloadParam_recognized c Hr), member_text, member_attachments.
  rewrite ignoreEmoji_assigned. unfold formatted. rewrite Hmode. cbn.
  repeat split.
Qed.

(** ** Optional fields in the serialized payload *)

(** C1, as the code has it: for a recognized formatting mode the returned
    text always has the four members [channel], [username], [icon_emoji]
    and [icon_url]; a member is a string only when the finalized value is
    not empty (for the emoji: and no icon URL was finalized), and then it
    is that value; a member whose value is absent is written as [null],
    not left out and not written as an empty string.  For mode [text],
    message [Build OK], color [good], a build that did not fail and no
    optional input, the function prints nothing and returns the text and
    the four members as [null]. *)
Theorem optional_fields_null_when_absent :
  (forall c : ConfigsModel,
     recognized (FormattingMode c) ->
     exists r,
       builtRequestParams c = Some r
       /\ snd (CreatePayloadParam c)
          = Returns (json.render (json.Obj (members_RequestParams r)), None)
       /\ json.member "channel" (members_RequestParams r)
          = Some (if str_eqb (Channel c) "" then json.Null
                  else json.Str (Channel c))
       /\ json.member "username" (members_RequestParams r)
          = Some (if str_eqb (finalUsername c) "" then json.Null
                  else json.Str (finalUsername c))
       /\ json.member "icon_emoji" (members_RequestParams r)
          = Some (if str_eqb (finalEmoji c) "" || negb (str_eqb (finalIconURL c) "")
                  then json.Null else json.Str (finalEmoji c))
       /\ json.member "icon_url" (members_RequestParams r)
          = Some (if str_eqb (finalIconURL c) "" then json.Null
                  else json.Str (finalIconURL c)))
  /\ CreatePayloadParam exampleBuildOK = ([], Returns (nullFieldsPayload, None)).
Proof.
  split; [|reflexivity].
  intros c Hr. eexists.
  split; [apply (builtRequestParams_recognized c Hr)|].
  rewrite (CreatePayloadParam_recognized c Hr), member_channel, member_username,
    member_icon_emoji, member_icon_url.
  rewrite ignoreEmoji_assigned. cbn. unfold present.
  destruct (str_eqb (Channel c) ""), (str_eqb (finalUsername c) ""),
    (str_eqb (finalEmoji c) ""), (str_eqb (finalIconURL c) "");
    repeat split.
Qed.

(** The claim C1 fails on the example it names: the settings have no
    channel, username, emoji or icon URL, and the returned text is not the
    bare text object; the payload has a member for each of the four
    fields, with the value [null]. *)
Lemma optional_fields_omitted_counterexample :
  Channel exampleBuildOK = "" /\ finalUsername exampleBuildOK = ""
  /\ finalEmoji exampleBuildOK = "" /\ finalIconURL exampleBuildOK = ""
  /\ snd (CreatePayloadParam exampleBuildOK) <> Returns (bareTextPayload, None)
  /\ exists r,
       builtRequestParams exampleBuildOK = Some r
       /\ snd (CreatePayloadParam exampleBuildOK)
          = Returns (json.render (json.Obj (members_RequestParams r)), None)
       /\ json.member "channel" (members_RequestParams r) = Some json.Null
       /\ json.member "username" (members_RequestParams r) = Some json.Null
       /\ json.member "icon_emoji" (members_RequestParams r) = Some json.Null
       /\ json.member "icon_url" (members_RequestParams r) = Some json.Null.
Proof.
  repeat (split; [reflexivity|]).
  split; [vm_compute; discriminate|].
  eexists. repeat split.
Qed.

(** ** The theorems at concrete settings *)



Lemma icon_url_drops_emoji_witness :
  recognized (FormattingMode exampleFailed)
  /\ finalIconURL exampleFailed <> ""
  /\ finalEmoji exampleFailed = ":boom:"
  /\ exists r,
       builtRequestParams exampleFailed = Some r
       /\ Request.IconURL r = Some "https://example.com/fail.png"
       /\ Request.EmojiIcon r = None
       /\ json.member "icon_emoji" (members_RequestParams r) = Some json.Null.
Proof.
  assert (Hi : finalIconURL exampleFailed <> "") by (vm_compute; discriminate).
  split; [right; reflexivity|]. split; [exact Hi|]. split; [reflexivity|].
  destruct (icon_url_drops_emoji exampleFailed (or_intror eq_refl) Hi)
    as (r & Hb & Hu & He & _ & _ & Hn).
  exists r. repeat split; assumption.
Defined.

Lemma attachment_mode_payload_witness :
  validate exampleFailed = None
  /\ FormattingMode exampleFailed = formattingModeAttachment
  /\ exists r,
       builtRequestParams exampleFailed = Some r
       /\ Request.Attachments r = [Attachment.mk "Build FAILED" "Build FAILED" "danger"]
       /\ Request.Text r = "".
Proof.
  split; [reflexivity|]. split; [reflexivity|].
  destruct (attachment_mode_payload exampleFailed eq_refl eq_refl)
    as (out & l & r & Ha & Ht & Hc & Hb & Hatt & Htxt & _).
  exists r. split; [exact Hb|]. split; [|exact Htxt].
  rewrite Hatt, Ht, Hc. reflexivity.
Defined.

Lemma text_mode_payload_witness :
  validate exampleSucceeded = None
  /\ FormattingMode exampleSucceeded = formattingModeText
  /\ exists r,
       builtRequestParams exampleSucceeded = Some r
       /\ Request.Text r = "Build OK"
       /\ Request.Attachments r = []
       /\ json.member "attachments" (members_RequestParams r) = None.
Proof.
  split; [reflexivity|]. split; [reflexivity|].
  destruct (text_mode_payload exampleSucceeded eq_refl eq_refl)
    as (out & l & r & Ha & Ht & Hb & Htxt & Hatt & _ & _ & Hm).
  exists r. split; [exact Hb|]. split; [|split; assumption].
  rewrite Htxt, Ht. reflexivity.
Defined.

Lemma optional_fields_null_when_absent_witness :
  recognized (FormattingMode exampleFailed)
  /\ exists r,
       builtRequestParams exampleFailed = Some r
       /\ json.member "channel" (members_RequestParams r) = Some (json.Str "#builds")
       /\ json.member "username" (members_RequestParams r) = Some (json.Str "ci-alert")
       /\ json.member "icon_emoji" (members_RequestParams r) = Some json.Null
       /\ json.member "icon_url" (members_RequestParams r)
          = Some (json.Str "https://example.com/fail.png").
Proof.
  split; [right; reflexivity|].
  destruct (proj1 optional_fields_null_when_absent exampleFailed (or_intror eq_refl))
    as (r & Hb & _ & Hc & Hu & He & Hi).
  exists r. repeat split; assumption.
Defined.

Lemma serialization_error_swallowed_witness :
  builtRequestParams exampleBuildOK
  = Some (Request.mk "Build OK" [] None None None None)
  /\ failingMarshal (Request.mk "Build OK" [] None None None None)
     = inr "json: unsupported value"
  /\ snd (CreatePayloadParam_with failingMarshal exampleBuildOK)
     = Returns (EmptyString, None)
  /\ (None : option error) = None.
Proof.
  split; [reflexivity|]. split; [reflexivity|].
  split.
  - exact (proj1 (serialization_error_swallowed failingMarshal exampleBuildOK)
             _ _ eq_refl eq_refl).
  - exact (proj2 (serialization_error_swallowed failingMarshal exampleBuildOK)
             EmptyString None eq_refl).
Defined.

Lemma abort_branch_unreachable_after_validate_witness :
  validate exampleBuildOK = None
  /\ (exists out l, assignRequestParams exampleBuildOK = (out, Returns l))
  /\ forall code, snd (CreatePayloadParam exampleBuildOK) <> Exits code.
Proof.
  split; [reflexivity|].
  destruct (abort_branch_unreachable_after_validate exampleBuildOK eq_refl)
    as (_ & Hl & HM).
  split; [exact Hl|].
  exact (proj1 (proj2 (HM json_Marshal))).
Defined.

(** ** The model at work *)

(** The failed build of [exampleFailed]: every on-error variant is used,
    no notice is printed, the icon URL silences the emoji. *)
Example exampleFailed_payload :
  CreatePayloadParam exampleFailed
  = ([],
     Returns
       (json.render
          (json.Obj
             [("text", json.Str "");
              ("attachments",
               json.Arr [json.Obj [("fallback", json.Str "Build FAILED");
                                   ("text", json.Str "Build FAILED");
                                   ("color", json.Str "danger")]]);
              ("channel", json.Str "#builds");
              ("username", json.Str "ci-alert");
              ("icon_emoji", json.Null);
              ("icon_url", json.Str "https://example.com/fail.png")]),
        None)).
Proof. reflexivity. Qed.

(** An unknown formatting mode ends the process with status 1. *)
Example unknown_mode_exits :
  CreatePayloadParam
    (mkConfigs "https://hooks.slack.com/services/T/B/X" "" "" "" "Build OK" ""
       "markdown" "good" "" "" "" "" "" false false)
  = ([Println [Red "Invalid formatting mode:"; Plain "markdown"]], Exits 1).
Proof. reflexivity. Qed.

(** String escaping: HTML characters and control characters are written
    as escapes, valid multi-byte runes are copied, a stray continuation
    byte becomes the replacement character. *)
Example appendString_escapes :
  json.appendString_loop "a<b>&c" = "a\u003cb\u003e\u0026c"
  /\ json.appendString_loop (String (ascii_of_N 10) (String (ascii_of_N 1) "x"))
     = "\n\u0001x"
  /\ json.appendString_loop (String (ascii_of_N 195) (String (ascii_of_N 169) "!"))
     = String (ascii_of_N 195) (String (ascii_of_N 169) "!")
  /\ json.appendString_loop (String (ascii_of_N 169) "!") = "\ufffd!"
  /\ json.appendString_loop
       (String (ascii_of_N 226) (String (ascii_of_N 128) (String (ascii_of_N 169) "")))
     = "\u2029".
Proof. repeat split. Qed.

(** * Further properties of the code *)

(** ** main *)

Section Main.

Variable env : gmap string string.
Variable PostForm : string -> gmap string (list string) -> Response + error.

Let configs : ConfigsModel := createConfigsModelFromEnvs env.

(** Rejected settings: the settings are echoed, the error is reported and
    the process ends with status 1. *)
Lemma main_rejected (err : error) :
  validate configs = Some err ->
  main env PostForm
  = ((fst (print configs)
      ++ [Fmt_Println []; Fmt_Println [Of (Red "Issue with input:"); Err err];
          Fmt_Println []])%list,
     Exits 1).
Proof.
  intros Hv. unfold main. fold configs. rewrite Hv. clearbody configs.
  reflexivity.
Qed.

(** Accepted settings: the settings are echoed, the payload is built and
    sent in one request, and the answer decides the rest. *)
Lemma main_accepted :
  validate configs = None ->
  main env PostForm
  = ((fst (print configs)
      ++ List.map Stdout (fst (CreatePayloadParam configs))
      ++ (if IsDebugMode configs
          then [Fmt_Println [];
                Fmt_Println [Of (Plain "JSON payload: "); Of (Plain (sentPayload configs))]]
          else [])
      ++ [Http_PostForm (WebhookURL configs) {[ "payload" := [sentPayload configs] ]}]
      ++ fst (afterRequest (IsDebugMode configs)
                (PostForm (WebhookURL configs) {[ "payload" := [sentPayload configs] ]})))%list,
     Exits (snd (afterRequest (IsDebugMode configs)
                   (PostForm (WebhookURL configs) {[ "payload" := [sentPayload configs] ]})))).
Proof.
  intros Hv.
  destruct (validate_None_inv configs Hv) as (_ & _ & _ & _ & Hr).
  pose proof (CreatePayloadParam_recognized configs Hr) as Hp.
  fold (sentPayload configs) in Hp.
  unfold main. fold configs. rewrite Hv. clearbody configs.
  destruct (CreatePayloadParam configs) as [out res]. cbn [snd fst] in *. subst res.
  generalize (sentPayload configs). intros s.
  unfold afterRequest.
  destruct (PostForm (WebhookURL configs) {[ "payload" := [s] ]}) as [resp | err] eqn:Es.
  - destruct (StatusCode resp =? 200) eqn:E200; destruct (IsDebugMode configs) eqn:Ed;
      cbn; rewrite ?Es; cbn; rewrite ?E200; cbn; rewrite ?app_nil_r; reflexivity.
  - destruct (IsDebugMode configs) eqn:Ed;
      cbn; rewrite ?Es; cbn; rewrite ?app_nil_r; reflexivity.
Qed.

End Main.

Lemma requests_app (t1 t2 : list effect) :
  requests (t1 ++ t2) = (requests t1 ++ requests t2)%list.
Proof. apply omap_app. Qed.

Lemma requests_Stdout (out : list event) : requests (List.map Stdout out) = [].
Proof. induction out as [|e out IH]; [reflexivity | exact IH]. Qed.

Lemma requests_print (c : ConfigsModel) : requests (fst (print c)) = [].
Proof. reflexivity. Qed.

Lemma requests_afterRequest (debug : bool) (sent : Response + error) :
  requests (fst (afterRequest debug sent)) = [].
Proof.
  destruct sent as [resp | err]; [|reflexivity].
  unfold afterRequest. destruct (StatusCode resp =? 200), debug; reflexivity.
Qed.

Lemma validated_payload (c : ConfigsModel) :
  validate c = None ->
  snd (CreatePayloadParam c) = Returns (sentPayload c, None).
Proof.
  intros Hv. destruct (validate_None_inv c Hv) as (_ & _ & _ & _ & Hr).
  apply (CreatePayloadParam_recognized c Hr).
Qed.

(** X1: when [validate] rejects the settings read from the environment,
    [main] sends no request, whatever the HTTP client would answer: it
    prints the error after the echo of the settings and ends the process
    with status 1. *)
Theorem main_rejected_sends_nothing (env : gmap string string)
  (PostForm : string -> gmap string (list string) -> Response + error)
  (err : error) :
  validate (createConfigsModelFromEnvs env) = Some err ->
  requests (fst (main env PostForm)) = []
  /\ snd (main env PostForm) = Exits 1
  /\ Fmt_Println [Of (Red "Issue with input:"); Err err] ∈ fst (main env PostForm).
Proof.
  intros Hv. rewrite (main_rejected env PostForm err Hv). cbn [fst snd].
  split; [|split].
  - rewrite requests_app, requests_print. reflexivity.
  - reflexivity.
  - rewrite elem_of_app. right. rewrite !elem_of_cons. auto.
Qed.

(** X2: when [validate] accepts the settings, [main] sends exactly one
    request, whatever the answer is: a form post to the webhook URL whose
    only field, [payload], holds the one string [CreatePayloadParam]
    returned.  A failed or refused request is not sent again. *)
Theorem main_accepted_sends_once (env : gmap string string)
  (PostForm : string -> gmap string (list string) -> Response + error) :
  validate (createConfigsModelFromEnvs env) = None ->
  exists s,
    snd (CreatePayloadParam (createConfigsModelFromEnvs env)) = Returns (s, None)
    /\ requests (fst (main env PostForm))
       = [(WebhookURL (createConfigsModelFromEnvs env), {[ "payload" := [s] ]})].
Proof.
  intros Hv. exists (sentPayload (createConfigsModelFromEnvs env)).
  split; [apply (validated_payload _ Hv)|].
  rewrite (main_accepted env PostForm Hv). cbn [fst].
  rewrite !requests_app, requests_print, requests_Stdout, requests_afterRequest.
  destruct (IsDebugMode _); reflexivity.
Qed.

(** X3: [main] always ends the process, with status 0 or 1, and the status
    is 0 exactly when the settings are valid and the HTTP client answers
    the request with a response of status 200. *)
Theorem main_exit_status (env : gmap string string)
  (PostForm : string -> gmap string (list string) -> Response + error) :
  exists code,
    snd (main env PostForm) = Exits code
    /\ (code = 0 \/ code = 1)
    /\ (code = 0 <->
        validate (createConfigsModelFromEnvs env) = None
        /\ exists s resp,
             snd (CreatePayloadParam (createConfigsModelFromEnvs env)) = Returns (s, None)
             /\ PostForm (WebhookURL (createConfigsModelFromEnvs env))
                  {[ "payload" := [s] ]} = inl resp
             /\ StatusCode resp = 200).
Proof.
  destruct (validate (createConfigsModelFromEnvs env)) as [err|] eqn:Hv.
  - exists 1. rewrite (main_rejected env PostForm err Hv).
    split; [reflexivity|]. split; [now right|].
    split; [discriminate | intros [H _]; discriminate H].
  - rewrite (main_accepted env PostForm Hv). cbn [snd].
    pose proof (validated_payload _ Hv) as Hp.
    unfold afterRequest.
    destruct (PostForm _ _) as [resp | e] eqn:Es.
    + destruct (StatusCode resp =? 200) eqn:E200.
      * exists 0. split; [reflexivity|]. split; [now left|].
        split; [|reflexivity]. intros _. split; [reflexivity|].
        exists (sentPayload (createConfigsModelFromEnvs env)), resp.
        apply Z.eqb_eq in E200. auto.
      * exists 1. split; [reflexivity|]. split; [now right|].
        split; [discriminate|].
        intros (_ & s & resp' & Hs & HP & H200).
        rewrite Hp in Hs. injection Hs as <-. rewrite Es in HP.
        injection HP as <-. apply Z.eqb_neq in E200. contradiction.
    + exists 1. split; [reflexivity|]. split; [now right|].
      split; [discriminate|].
      intros (_ & s & resp' & Hs & HP & _).
      rewrite Hp in Hs. injection Hs as <-. rewrite Es in HP. discriminate HP.
Qed.

(** X4: for valid settings, a response whose status is not 200 ends the
    process with status 1, and the run ends with the failure report, in
    which the body of the response is shown whether or not debug mode is
    on. *)
Theorem main_reports_refused_request (env : gmap string string)
  (PostForm : string -> gmap string (list string) -> Response + error)
  (s : string) (resp : Response) :
  validate (createConfigsModelFromEnvs env) = None ->
  snd (CreatePayloadParam (createConfigsModelFromEnvs env)) = Returns (s, None) ->
  PostForm (WebhookURL (createConfigsModelFromEnvs env)) {[ "payload" := [s] ]}
  = inl resp ->
  StatusCode resp <> 200 ->
  snd (main env PostForm) = Exits 1
  /\ [Fmt_Println [];
      Fmt_Println [Of (Red "Request failed")];
      Fmt_Println [Of (Plain "Response from Slack: "); Of (Plain (Body resp))];
      Fmt_Println []] `suffix_of` fst (main env PostForm).
Proof.
  intros Hv Hs HP H200.
  rewrite (validated_payload _ Hv) in Hs. injection Hs as <-.
  rewrite (main_accepted env PostForm Hv), HP. unfold afterRequest.
  apply Z.eqb_neq in H200. rewrite H200. cbn [fst snd].
  split; [reflexivity|].
  rewrite !app_assoc. eexists. reflexivity.
Qed.

(** X5: for valid settings, an error of the HTTP client ends the process
    with status 1, and the last line printed reports that error. *)
Theorem main_reports_transport_error (env : gmap string string)
  (PostForm : string -> gmap string (list string) -> Response + error)
  (s : string) (err : error) :
  validate (createConfigsModelFromEnvs env) = None ->
  snd (CreatePayloadParam (createConfigsModelFromEnvs env)) = Returns (s, None) ->
  PostForm (WebhookURL (createConfigsModelFromEnvs env)) {[ "payload" := [s] ]}
  = inr err ->
  snd (main env PostForm) = Exits 1
  /\ last (fst (main env PostForm))
     = Some (Fmt_Println [Of (Red "Failed to send the request:"); Err err]).
Proof.
  intros Hv Hs HP.
  rewrite (validated_payload _ Hv) in Hs. injection Hs as <-.
  rewrite (main_accepted env PostForm Hv), HP. cbn [afterRequest fst snd].
  split; [reflexivity|].
  rewrite !app_assoc. apply last_snoc.
Qed.

(** X6: [main] begins by echoing the settings, before it validates them:
    every run starts with the twenty lines of [print], whether the
    settings are valid or not and whatever the HTTP client does. *)
Theorem main_echoes_settings_first (env : gmap string string)
  (PostForm : string -> gmap string (list string) -> Response + error) :
  fst (print (createConfigsModelFromEnvs env)) `prefix_of` fst (main env PostForm)
  /\ length (fst (print (createConfigsModelFromEnvs env))) = 20%nat.
Proof.
  split; [|reflexivity].
  destruct (validate (createConfigsModelFromEnvs env)) as [err|] eqn:Hv.
  - rewrite (main_rejected env PostForm err Hv). eexists. reflexivity.
  - rewrite (main_accepted env PostForm Hv). eexists. reflexivity.
Qed.

Lemma Green_not_printed_by_print (c : ConfigsModel) (s : string) :
  Fmt_Println [Green s] ∉ fst (print c).
Proof.
  rewrite list_elem_of_In. cbn. intros H.
  repeat destruct H as [H | H]; try discriminate H. exact H.
Qed.

Lemma Fmt_Println_not_Stdout (out : list event) (ops : list operand) :
  Fmt_Println ops ∉ List.map Stdout out.
Proof.
  rewrite list_elem_of_In, in_map_iff. intros (e & H & _). discriminate H.
Qed.

(** X8: the success banner is printed exactly in the runs that end with
    status 0. *)
Theorem main_success_banner (env : gmap string string)
  (PostForm : string -> gmap string (list string) -> Response + error) :
  Fmt_Println [Green "Slack message successfully sent! 🚀"] ∈ fst (main env PostForm)
  <-> snd (main env PostForm) = Exits 0.
Proof.
  destruct (validate (createConfigsModelFromEnvs env)) as [err|] eqn:Hv.
  - rewrite (main_rejected env PostForm err Hv). cbn [fst snd].
    split; [|discriminate].
    rewrite elem_of_app. intros [H | H].
    + now apply Green_not_printed_by_print in H.
    + rewrite !elem_of_cons, elem_of_nil in H.
      repeat destruct H as [H | H]; try discriminate H. contradiction.
  - rewrite (main_accepted env PostForm Hv). cbn [fst snd].
    rewrite !elem_of_app. unfold afterRequest.
    destruct (PostForm _ _) as [resp | e].
    + destruct (StatusCode resp =? 200).
      * split; [reflexivity|]. intros _. do 4 right. cbn [fst].
        rewrite elem_of_app. right. rewrite !elem_of_cons. auto.
      * split; [|discriminate]. cbn [fst].
        intros [H | [H | [H | [H | H]]]].
        -- now apply Green_not_printed_by_print in H.
        -- now apply Fmt_Println_not_Stdout in H.
        -- destruct (IsDebugMode _);
             rewrite ?elem_of_cons, elem_of_nil in H;
             repeat destruct H as [H | H]; try discriminate H; contradiction.
        -- rewrite elem_of_cons, elem_of_nil in H.
           destruct H as [H | H]; [discriminate H | contradiction].
        -- rewrite !elem_of_cons, elem_of_nil in H.
           repeat destruct H as [H | H]; try discriminate H. contradiction.
    + split; [|discriminate]. cbn [fst].
      intros [H | [H | [H | [H | H]]]].
      -- now apply Green_not_printed_by_print in H.
      -- now apply Fmt_Println_not_Stdout in H.
      -- destruct (IsDebugMode _);
           rewrite ?elem_of_cons, elem_of_nil in H;
           repeat destruct H as [H | H]; try discriminate H; contradiction.
      -- rewrite elem_of_cons, elem_of_nil in H.
         destruct H as [H | H]; [discriminate H | contradiction].
      -- rewrite !elem_of_cons, elem_of_nil in H.
         destruct H as [H | H]; [discriminate H | contradiction].
Qed.

(** ** CreatePayloadParam: process exit, notices, debug mode *)

(** X9: whatever the serializer, [CreatePayloadParam] ends the process
    exactly when the formatting mode is neither [text] nor [attachment],
    and the status is then 1; otherwise it returns. *)
Theorem CreatePayloadParam_exits_iff_unrecognized
  (Marshal : RequestParams -> string + error) (c : ConfigsModel) :
  (forall code,
     snd (CreatePayloadParam_with Marshal c) = Exits code
     <-> code = 1 /\ ~ recognized (FormattingMode c))
  /\ ((exists res, snd (CreatePayloadParam_with Marshal c) = Returns res)
      <-> recognized (FormattingMode c)).
Proof.
  destruct (decide (recognized (FormattingMode c))) as [Hr | Hr].
  - rewrite (CreatePayloadParam_with_recognized Marshal c Hr). cbn [snd].
    split.
    + intros code. split; [discriminate | tauto].
    + split; [auto | eauto].
  - rewrite (CreatePayloadParam_with_unrecognized Marshal c Hr).
    split.
    + intros code. split.
      * intros [= <-]. auto.
      * intros [-> _]. reflexivity.
    + split; [intros [res H]; discriminate H | contradiction].
Qed.

(** X10: with an unrecognized formatting mode the last line printed names
    the offending mode, none of the notices about the username, the emoji
    or the icon URL is printed, and the serializer plays no part: any two
    serializers give the same run. *)
Theorem CreatePayloadParam_unrecognized_mode
  (Marshal Marshal' : RequestParams -> string + error) (c : ConfigsModel) :
  ~ recognized (FormattingMode c) ->
  last (fst (CreatePayloadParam_with Marshal c))
  = Some (Println [Red "Invalid formatting mode:"; Plain (FormattingMode c)])
  /\ (Println [Yellow " (i) Build failed but no from_username_on_error defined, using default."]
      ∉ fst (CreatePayloadParam_with Marshal c))
  /\ (Println [Yellow " (i) Build failed but no emoji_on_error defined, using default."]
      ∉ fst (CreatePayloadParam_with Marshal c))
  /\ (Println [Yellow " (i) Build failed but no icon_url_on_error defined, using default."]
      ∉ fst (CreatePayloadParam_with Marshal c))
  /\ CreatePayloadParam_with Marshal c = CreatePayloadParam_with Marshal' c.
Proof.
  intros Hr.
  assert (H : forall Ms, CreatePayloadParam_with Ms c
    = ((requiredNotices c
        ++ [Println [Red "Invalid formatting mode:"; Plain (FormattingMode c)]])%list,
       Exits 1)).
  { intros Ms. unfold CreatePayloadParam_with.
    erewrite bind_stop; [reflexivity|].
    apply (assignRequestParams_unrecognized c Hr). }
  rewrite (H Marshal), (H Marshal'). cbn [fst].
  split; [apply last_snoc|].
  unfold requiredNotices, notice.
  repeat split;
    destruct (IsBuildFailed c); cbn [andb];
    destruct (str_eqb (ColorOnError c) ""), (str_eqb (MessageOnError c) "");
    rewrite list_elem_of_In; cbn; intros Hin;
    repeat destruct Hin as [Hin | Hin]; solve [discriminate Hin | exact Hin].
Qed.

Lemma set_IsDebugMode_recognized (b : bool) (c : ConfigsModel) :
  recognized (FormattingMode (set_IsDebugMode b c)) <-> recognized (FormattingMode c).
Proof. reflexivity. Qed.

Lemma notice_elem (failed : bool) (onError msg target : string) :
  Println [Yellow target] ∈ notice failed onError msg
  <-> target = msg /\ failed = true /\ onError = "".
Proof.
  unfold notice. rewrite <- (str_eqb_eq onError "").
  destruct failed, (str_eqb onError ""); cbn [andb].
  - rewrite elem_of_cons, elem_of_nil. split.
    + intros [[= ->] | []]. auto.
    + intros (-> & _ & _). now left.
  - rewrite elem_of_nil. split; [contradiction | intros (_ & _ & H); discriminate H].
  - rewrite elem_of_nil. split; [contradiction | intros (_ & H & _); discriminate H].
  - rewrite elem_of_nil. split; [contradiction | intros (_ & H & _); discriminate H].
Qed.

Lemma Println_not_debugOutput (c : ConfigsModel) (r : RequestParams)
  (ops : list text) :
  Println ops ∉ debugOutput c r.
Proof.
  unfold debugOutput. destruct (IsDebugMode c).
  - rewrite elem_of_cons, elem_of_nil. intros [H | []]. discriminate H.
  - apply not_elem_of_nil.
Qed.

(** X11: for a recognized formatting mode, each of the five notices is
    printed exactly when the build failed and the on-error variant it
    names is empty. *)
Theorem notice_iff_failed_without_variant (c : ConfigsModel) :
  recognized (FormattingMode c) ->
  (Println [Yellow " (i) Build failed but no color_on_error defined, using default."]
     ∈ fst (CreatePayloadParam c)
   <-> IsBuildFailed c = true /\ ColorOnError c = "")
  /\ (Println [Yellow " (i) Build failed but no message_on_error defined, using default."]
        ∈ fst (CreatePayloadParam c)
      <-> IsBuildFailed c = true /\ MessageOnError c = "")
  /\ (Println [Yellow " (i) Build failed but no from_username_on_error defined, using default."]
        ∈ fst (CreatePayloadParam c)
      <-> IsBuildFailed c = true /\ FromUsernameOnError c = "")
  /\ (Println [Yellow " (i) Build failed but no emoji_on_error defined, using default."]
        ∈ fst (CreatePayloadParam c)
      <-> IsBuildFailed c = true /\ EmojiOnError c = "")
  /\ (Println [Yellow " (i) Build failed but no icon_url_on_error defined, using default."]
        ∈ fst (CreatePayloadParam c)
      <-> IsBuildFailed c = true /\ IconURLOnError c = "").
Proof.
  intros Hr. unfold CreatePayloadParam.
  rewrite (CreatePayloadParam_with_recognized json_Marshal c Hr). cbn [fst].
  pose proof (Println_not_debugOutput c (ignoreEmoji (reqParams (assigned c)))) as Hd.
  unfold requiredNotices, optionalNotices.
  rewrite !elem_of_app, !notice_elem.
  split; [|split; [|split; [|split]]];
    (split;
     [ intros Hin;
       repeat match type of Hin with _ \/ _ => destruct Hin as [Hin | Hin] end;
       first [ now apply Hd in Hin
             | destruct Hin as (Ht & H); first [discriminate Ht | exact H] ]
     | intros H; auto 10 ]).
Qed.

(** X12: debug mode changes nothing but the output.  With any serializer,
    switching the flag leaves the result of the function as it is, and the
    run with the flag on prints what the run with the flag off prints,
    followed by the one line that shows the request parameters when the
    serializer is reached. *)
Theorem debug_mode_only_prints
  (Marshal : RequestParams -> string + error) (c : ConfigsModel) :
  snd (CreatePayloadParam_with Marshal (set_IsDebugMode true c))
  = snd (CreatePayloadParam_with Marshal (set_IsDebugMode false c))
  /\ fst (CreatePayloadParam_with Marshal (set_IsDebugMode true c))
     = (fst (CreatePayloadParam_with Marshal (set_IsDebugMode false c))
        ++ match builtRequestParams c with
           | Some r => [PrintfParameters r]
           | None => []
           end)%list.
Proof.
  destruct (decide (recognized (FormattingMode c))) as [Hr | Hr].
  - rewrite (builtRequestParams_recognized c Hr).
    rewrite (CreatePayloadParam_with_recognized Marshal (set_IsDebugMode true c) Hr),
      (CreatePayloadParam_with_recognized Marshal (set_IsDebugMode false c) Hr).
    cbn [fst snd]. split; [reflexivity|].
    unfold debugOutput. cbn [set_IsDebugMode IsDebugMode].
    rewrite app_nil_r, !app_assoc. reflexivity.
  - unfold builtRequestParams. rewrite (assignRequestParams_unrecognized c Hr).
    unfold CreatePayloadParam_with.
    erewrite (bind_stop (assignRequestParams (set_IsDebugMode true c)));
      [|apply (assignRequestParams_unrecognized (set_IsDebugMode true c) Hr)].
    erewrite (bind_stop (assignRequestParams (set_IsDebugMode false c)));
      [|apply (assignRequestParams_unrecognized (set_IsDebugMode false c) Hr)].
    cbn [fst snd]. rewrite app_nil_r. split; reflexivity.
Qed.

(** X13: in [text] mode the color settings have no effect on the payload:
    replacing [Color] and [ColorOnError] by any other values gives the
    same result. *)
Theorem text_mode_ignores_color (c : ConfigsModel) (color onError : string) :
  FormattingMode c = formattingModeText ->
  snd (CreatePayloadParam (set_Colors color onError c)) = snd (CreatePayloadParam c).
Proof.
  intros Hmode.
  assert (Hr : recognized (FormattingMode c)) by (now left).
  rewrite (CreatePayloadParam_recognized (set_Colors color onError c) Hr),
    (CreatePayloadParam_recognized c Hr).
  rewrite !ignoreEmoji_assigned. unfold formatted.
  cbn [set_Colors FormattingMode]. rewrite Hmode. reflexivity.
Qed.

(** X14: when none of the five on-error variants is set, a failed build
    sends what a successful build sends: the result of the function does
    not depend on the build-failed flag. *)
Theorem failed_build_without_variants_falls_back (c : ConfigsModel) :
  ColorOnError c = "" -> MessageOnError c = "" -> FromUsernameOnError c = "" ->
  EmojiOnError c = "" -> IconURLOnError c = "" ->
  snd (CreatePayloadParam (set_IsBuildFailed true c))
  = snd (CreatePayloadParam (set_IsBuildFailed false c)).
Proof.
  intros Hc Hm Hu He Hi.
  destruct (decide (recognized (FormattingMode c))) as [Hr | Hr].
  - rewrite (CreatePayloadParam_recognized (set_IsBuildFailed true c) Hr),
      (CreatePayloadParam_recognized (set_IsBuildFailed false c) Hr).
    rewrite !ignoreEmoji_assigned.
    unfold formatted, finalColor, finalText, finalUsername, finalEmoji,
      finalIconURL, override_rule.
    cbn [set_IsBuildFailed IsBuildFailed FormattingMode Color ColorOnError Message
         MessageOnError FromUsername FromUsernameOnError Emoji EmojiOnError
         IconURL IconURLOnError Channel andb].
    rewrite Hc, Hm, Hu, He, Hi. reflexivity.
  - unfold CreatePayloadParam.
    rewrite (CreatePayloadParam_with_unrecognized json_Marshal (set_IsBuildFailed true c) Hr),
      (CreatePayloadParam_with_unrecognized json_Marshal (set_IsBuildFailed false c) Hr).
    reflexivity.
Qed.

(** X15: with [json.Marshal] the empty payload of the swallowed-error
    branch never occurs: whenever [CreatePayloadParam] returns, the error
    is nil and the string is a JSON object that begins with the member
    [text]. *)
Theorem payload_never_empty (c : ConfigsModel) (s : string) (e : option error) :
  snd (CreatePayloadParam c) = Returns (s, e) ->
  e = None /\ s <> ""
  /\ exists rest, s = "{" +:+ json.quoted "text" +:+ ":" +:+ rest.
Proof.
  destruct (decide (recognized (FormattingMode c))) as [Hr | Hr].
  - rewrite (CreatePayloadParam_recognized c Hr). intros [= <- <-].
    split; [reflexivity|]. split; [discriminate|].
    unfold marshal_RequestParams, members_RequestParams.
    destruct (Request.Attachments _); eexists; reflexivity.
  - unfold CreatePayloadParam.
    rewrite (CreatePayloadParam_with_unrecognized json_Marshal c Hr). discriminate.
Qed.

(** ** The settings read from the environment *)

Lemma os_Getenv_insert_ne (env : gmap string string) (k key v : string) :
  k <> key -> os_Getenv (<[k := v]> env) key = os_Getenv env key.
Proof. intros H. unfold os_Getenv. rewrite lookup_insert_ne by exact H. reflexivity. Qed.

Lemma os_Getenv_delete_ne (env : gmap string string) (k key : string) :
  k <> key -> os_Getenv (delete k env) key = os_Getenv env key.
Proof. intros H. unfold os_Getenv. rewrite lookup_delete_ne by exact H. reflexivity. Qed.

Lemma os_Getenv_empty_unset (env : gmap string string) (k key : string) :
  os_Getenv (<[k := ""]> env) key = os_Getenv (delete k env) key.
Proof.
  unfold os_Getenv. destruct (decide (k = key)) as [-> | H].
  - rewrite lookup_insert_eq, lookup_delete_eq. reflexivity.
  - rewrite lookup_insert_ne, lookup_delete_ne by exact H. reflexivity.
Qed.

(** X16: the settings are read from the fifteen input variables and
    from nothing else: setting or unsetting any other variable of the
    environment leaves the settings built by [createConfigsModelFromEnvs]
    as they are. *)
Theorem other_variables_ignored (env : gmap string string) (k v : string) :
  k ∉ inputNames ->
  createConfigsModelFromEnvs (<[k := v]> env) = createConfigsModelFromEnvs env
  /\ createConfigsModelFromEnvs (delete k env) = createConfigsModelFromEnvs env.
Proof.
  intros Hk. unfold inputNames in Hk.
  rewrite !not_elem_of_cons in Hk.
  destruct Hk as (H1 & H2 & H3 & H4 & H5 & H6 & H7 & H8 & H9 & H10 & H11 & H12
                  & H13 & H14 & H15 & _).
  split; unfold createConfigsModelFromEnvs.
  - rewrite !os_Getenv_insert_ne by assumption. reflexivity.
  - rewrite !os_Getenv_delete_ne by assumption. reflexivity.
Qed.

(** X17: a variable set to the empty string counts as unset: the settings
    are the same in both cases, for every variable. *)
Theorem empty_variable_is_unset (env : gmap string string) (k : string) :
  createConfigsModelFromEnvs (<[k := ""]> env)
  = createConfigsModelFromEnvs (delete k env).
Proof.
  unfold createConfigsModelFromEnvs.
  rewrite !(os_Getenv_empty_unset env k). reflexivity.
Qed.

(** X18: debug mode is on exactly when [is_debug_mode] is set to [yes];
    any other value, and no value, leaves it off. *)
Theorem debug_mode_only_for_yes (env : gmap string string) :
  (IsDebugMode (createConfigsModelFromEnvs env) = true
   <-> env !! "is_debug_mode" = Some "yes")
  /\ (forall v : string,
        IsDebugMode (createConfigsModelFromEnvs (<["is_debug_mode" := v]> env))
        = str_eqb v "yes")
  /\ IsDebugMode (createConfigsModelFromEnvs (delete "is_debug_mode" env)) = false.
Proof.
  cbn [createConfigsModelFromEnvs IsDebugMode]. unfold os_Getenv.
  split; [|split].
  - rewrite str_eqb_eq.
    destruct (env !! "is_debug_mode") as [v|]; simpl.
    + split; congruence.
    + split; discriminate.
  - intros v. rewrite lookup_insert_eq. reflexivity.
  - rewrite lookup_delete_eq. reflexivity.
Qed.

(** ** The text of the payload *)

Lemma all_bytes_app (P : N -> bool) (s t : string) :
  all_bytes P (s +:+ t) = all_bytes P s && all_bytes P t.
Proof.
  induction s as [|c s IH]; [reflexivity|].
  change (all_bytes P (String c (s +:+ t))
          = all_bytes P (String c s) && all_bytes P t).
  cbn [all_bytes]. rewrite IH. apply andb_assoc.
Qed.

Lemma appendString_loop_plain (s : string) :
  all_bytes json.htmlSafeSet s = true -> json.appendString_loop s = s.
Proof.
  induction s as [|c s IH]; [reflexivity|].
  cbn [all_bytes]. intros H. apply andb_prop in H as [Hc Hs].
  cbn [json.appendString_loop].
  assert (Hlt : (N_of_ascii c <? utf8.RuneSelf)%N = true).
  { unfold json.htmlSafeSet in Hc.
    apply andb_prop in Hc as [Hc _]. apply andb_prop in Hc as [_ Hc]. exact Hc. }
  rewrite Hlt, Hc, (IH Hs). reflexivity.
Qed.

(** X19: a string made of printable ASCII characters other than the double
    quote, the backslash, [<], [>] and [&] is serialized as it is, between
    double quotes. *)
Theorem plain_text_serialized_verbatim (s : string) :
  all_bytes json.htmlSafeSet s = true ->
  json.render (json.Str s) = json.quoted s.
Proof.
  intros H. cbn [json.render]. unfold json.encodeString.
  rewrite (appendString_loop_plain s H). reflexivity.
Qed.

Lemma wireSafe_high (b : N) : (0x80 <= b)%N -> wireSafe b = true.
Proof.
  intros H. unfold wireSafe. apply andb_true_intro. split.
  - apply N.leb_le. lia.
  - rewrite negb_true_iff, !orb_false_iff, !N.eqb_neq. lia.
Qed.

Lemma htmlSafe_wireSafe (b : N) : json.htmlSafeSet b = true -> wireSafe b = true.
Proof.
  unfold json.htmlSafeSet, wireSafe.
  destruct (0x20 <=? b)%N; [|discriminate]. destruct (b <? 0x80)%N; [|discriminate].
  destruct (b =? 0x22)%N, (b =? 0x5C)%N, (b =? 0x3C)%N, (b =? 0x3E)%N, (b =? 0x26)%N;
    cbn; congruence.
Qed.

Lemma hex_safe (n : N) : wireSafe (N_of_ascii (json.hex n)) = true.
Proof.
  unfold json.hex. generalize (N.to_nat n). intros k.
  do 16 (destruct k as [|k]; [reflexivity|]). reflexivity.
Qed.

Lemma escapeByte_safe (c : ascii) : all_bytes wireSafe (json.escapeByte c) = true.
Proof.
  destruct c as [[] [] [] [] [] [] [] []]; reflexivity.
Qed.

Lemma first_cases (b : N) :
  In (utf8.first b) [0xF0; 0xF1; 0x02; 0x13; 0x03; 0x23; 0x34; 0x04; 0x44]%N.
Proof.
  unfold utf8.first.
  repeat match goal with |- context [if ?t then _ else _] => destruct t end;
    cbn; tauto.
Qed.

Ltac bounds :=
  repeat match goal with
         | H : (_ || _) = false |- _ => apply orb_false_iff in H as [? ?]
         | H : negb _ = false |- _ => apply negb_false_iff in H
         | H : utf8.continuation _ = true |- _ =>
           unfold utf8.continuation in H; apply andb_prop in H as [? ?]
         | H : (_ <? _)%N = false |- _ => apply N.ltb_ge in H
         | H : (_ <=? _)%N = true |- _ => apply N.leb_le in H
         end.

Lemma decode_continuations (c0 : ascii) (t0 : string) (c : N) (size : nat) :
  utf8.DecodeRuneInString (String c0 t0) = (c, size) ->
  match size, t0 with
  | 2%nat, String c1 _ => (0x80 <= N_of_ascii c1)%N
  | 3%nat, String c1 (String c2 _) =>
    (0x80 <= N_of_ascii c1)%N /\ (0x80 <= N_of_ascii c2)%N
  | 4%nat, String c1 (String c2 (String c3 _)) =>
    (0x80 <= N_of_ascii c1)%N /\ (0x80 <= N_of_ascii c2)%N /\ (0x80 <= N_of_ascii c3)%N
  | _, _ => True
  end.
Proof.
  unfold utf8.DecodeRuneInString.
  pose proof (first_cases (N_of_ascii c0)) as Hf. cbn [In] in Hf.
  destruct t0 as [|c1 [|c2 [|c3 t3]]];
    generalize dependent (N_of_ascii c0); intros n0 Hf;
    try (generalize (N_of_ascii c1); intros n1);
    try (generalize (N_of_ascii c2); intros n2);
    try (generalize (N_of_ascii c3); intros n3);
    destruct Hf as [Hf | [Hf | [Hf | [Hf | [Hf | [Hf | [Hf | [Hf | [Hf | []]]]]]]]]];
    rewrite <- Hf; clear Hf;
    repeat match goal with
           | |- context [N.land ?a 7%N] =>
             let v := eval vm_compute in (N.land a 7%N) in change (N.land a 7%N) with v
           | |- context [N.shiftr ?a 4%N] =>
             let v := eval vm_compute in (N.shiftr a 4%N) in change (N.shiftr a 4%N) with v
           end;
    cbn -[N.lor N.ltb N.leb];
    repeat match goal with
           | |- context [if ?t then _ else _] => destruct t eqn:?
           end;
    intros [= <- <-]; try exact I; bounds; cbn in *; repeat split; lia.
Qed.

Lemma appendString_loop_safe (s : string) :
  all_bytes wireSafe (json.appendString_loop s) = true.
Proof.
  assert (H : forall (n : nat) (s : string),
             (String.length s <= n)%nat ->
             all_bytes wireSafe (json.appendString_loop s) = true).
  { clear s. induction n as [|n IH]; intros [|c0 t0] Hlen;
      try reflexivity; cbn [String.length] in Hlen; [lia|].
    cbn [json.appendString_loop].
    destruct (N_of_ascii c0 <? utf8.RuneSelf)%N eqn:Hlt.
    - rewrite all_bytes_app, (IH t0) by lia. rewrite andb_true_r.
      destruct (json.htmlSafeSet (N_of_ascii c0)) eqn:Hs.
      + cbn [all_bytes]. rewrite (htmlSafe_wireSafe _ Hs). reflexivity.
      + apply escapeByte_safe.
    - apply N.ltb_ge in Hlt. unfold utf8.RuneSelf in Hlt.
      pose proof (wireSafe_high _ Hlt) as H0.
      destruct (utf8.DecodeRuneInString (String c0 t0)) as [c size] eqn:Ed.
      pose proof (decode_continuations _ _ _ _ Ed) as Hc.
      destruct ((c =? utf8.RuneError)%N && (size =? 1)%nat).
      + rewrite all_bytes_app, (IH t0) by lia. reflexivity.
      + destruct size as [|[|[|[|[|size]]]]]; try reflexivity;
          destruct t0 as [|c1 [|c2 [|c3 t3]]]; try reflexivity;
          cbn [String.length] in Hlen;
          repeat match type of Hc with _ /\ _ => destruct Hc as [? Hc] end;
          try match goal with
              | |- context [if ?t then _ else _] => destruct t
              end;
          cbn [all_bytes]; rewrite ?all_bytes_app; cbn [all_bytes];
          rewrite ?hex_safe, ?H0, ?wireSafe_high by assumption;
          rewrite ?IH by (cbn [String.length]; lia); reflexivity. }
  apply (H (String.length s)). lia.
Qed.

Lemma quoted_safe (s : string) :
  all_bytes wireSafe s = true -> all_bytes wireSafe (json.quoted s) = true.
Proof.
  intros H. unfold json.quoted. cbn [all_bytes].
  rewrite all_bytes_app, H. reflexivity.
Qed.

Lemma encodeString_safe (s : string) :
  all_bytes wireSafe (json.encodeString s) = true.
Proof. apply quoted_safe, appendString_loop_safe. Qed.

Lemma join_safe (sep : string) (l : list string) :
  all_bytes wireSafe sep = true ->
  Forall (fun x => all_bytes wireSafe x = true) l ->
  all_bytes wireSafe (json.join sep l) = true.
Proof.
  intros Hsep Hl. induction Hl as [|x l Hx Hl IH]; [reflexivity|].
  destruct l as [|y l]; [exact Hx|].
  change (json.join sep (x :: y :: l)) with (x +:+ sep +:+ json.join sep (y :: l)).
  rewrite !all_bytes_app, Hx, Hsep, IH. reflexivity.
Qed.

Lemma render_Obj_safe (m : list (string * json.value)) :
  Forall (fun kv => all_bytes wireSafe (fst kv) = true
                    /\ all_bytes wireSafe (json.render (snd kv)) = true) m ->
  all_bytes wireSafe (json.render (json.Obj m)) = true.
Proof.
  intros Hm.
  change (json.render (json.Obj m))
    with ("{" +:+ json.join ","
                    (List.map (fun kv => json.quoted (fst kv) +:+ ":" +:+ json.render (snd kv)) m)
              +:+ "}").
  rewrite !all_bytes_app, join_safe; [reflexivity | reflexivity |].
  apply Forall_forall. intros x Hx. apply list_elem_of_In, in_map_iff in Hx.
  destruct Hx as (kv & <- & Hkv).
  rewrite Forall_forall in Hm. destruct (Hm kv) as [Hk Hv]; [now apply list_elem_of_In|].
  rewrite !all_bytes_app, (quoted_safe _ Hk), Hv. reflexivity.
Qed.

Lemma render_Arr_safe (l : list json.value) :
  Forall (fun v => all_bytes wireSafe (json.render v) = true) l ->
  all_bytes wireSafe (json.render (json.Arr l)) = true.
Proof.
  intros Hl.
  change (json.render (json.Arr l))
    with ("[" +:+ json.join "," (List.map json.render l) +:+ "]").
  rewrite !all_bytes_app, join_safe; [reflexivity | reflexivity |].
  apply Forall_forall. intros x Hx. apply list_elem_of_In, in_map_iff in Hx.
  destruct Hx as (v & <- & Hv).
  rewrite Forall_forall in Hl. apply Hl. now apply list_elem_of_In.
Qed.

Lemma render_pointer_safe (p : option string) :
  all_bytes wireSafe (json.render (marshal_pointer p)) = true.
Proof. destruct p; [apply encodeString_safe | reflexivity]. Qed.

Lemma render_attachment_safe (a : AttachmentItemModel) :
  all_bytes wireSafe (json.render (marshal_AttachmentItemModel a)) = true.
Proof.
  unfold marshal_AttachmentItemModel. apply render_Obj_safe.
  destruct (str_eqb (Attachment.Color a) "");
    repeat (apply Forall_cons; split; [split; [reflexivity | apply encodeString_safe]|]);
    apply Forall_nil; exact I.
Qed.

Lemma render_RequestParams_safe (r : RequestParams) :
  all_bytes wireSafe (json.render (marshal_RequestParams r)) = true.
Proof.
  unfold marshal_RequestParams, members_RequestParams. apply render_Obj_safe.
  apply Forall_app. split.
  { apply Forall_cons; split; [split; [reflexivity | apply encodeString_safe]|].
    apply Forall_nil; exact I. }
  apply Forall_app. split.
  - destruct (Request.Attachments r) as [|a l] eqn:E; [apply Forall_nil; exact I|].
    apply Forall_cons; split; [|apply Forall_nil; exact I].
    split; [reflexivity|]. apply render_Arr_safe.
    apply Forall_forall. intros x Hx. apply list_elem_of_In, in_map_iff in Hx.
    destruct Hx as (v & <- & _). apply render_attachment_safe.
  - repeat (apply Forall_cons; split; [split; [reflexivity | apply render_pointer_safe]|]).
    apply Forall_nil; exact I.
Qed.

(** X20: the text [CreatePayloadParam] returns holds no byte below 0x20
    (none of the ASCII control characters 0x00-0x1F, so no line feed and no
    carriage return) and none of the characters [<], [>] and [&], whatever
    the settings contain: the serializer writes them as escapes.  (The
    byte 0x7F and the control characters above U+007F are copied as they
    are.) *)
Theorem payload_text_is_safe (c : ConfigsModel) (s : string) (e : option error) :
  snd (CreatePayloadParam c) = Returns (s, e) ->
  all_bytes wireSafe s = true.
Proof.
  destruct (decide (recognized (FormattingMode c))) as [Hr | Hr].
  - rewrite (CreatePayloadParam_recognized c Hr). intros [= <- _].
    apply render_RequestParams_safe.
  - unfold CreatePayloadParam.
    rewrite (CreatePayloadParam_with_unrecognized json_Marshal c Hr). discriminate.
Qed.

(** ** The further properties at concrete inputs *)

Lemma main_rejected_sends_nothing_witness :
  validate (createConfigsModelFromEnvs (delete "webhook_url" exampleEnv))
  = Some errNoWebhookURL
  /\ requests (fst (main (delete "webhook_url" exampleEnv) (respondWith 200 "ok"))) = []
  /\ snd (main (delete "webhook_url" exampleEnv) (respondWith 200 "ok")) = Exits 1.
Proof.
  assert (Hv : validate (createConfigsModelFromEnvs (delete "webhook_url" exampleEnv))
               = Some errNoWebhookURL) by (vm_compute; reflexivity).
  split; [exact Hv|].
  destruct (main_rejected_sends_nothing (delete "webhook_url" exampleEnv)
              (respondWith 200 "ok") errNoWebhookURL Hv) as (Hq & Hx & _).
  split; assumption.
Defined.

Lemma main_accepted_sends_once_witness :
  validate (createConfigsModelFromEnvs exampleEnv) = None
  /\ requests (fst (main exampleEnv (respondWith 500 "invalid_payload")))
     = [("https://hooks.slack.com/services/T/B/X", {[ "payload" := [nullFieldsPayload] ]})].
Proof.
  assert (Hv : validate (createConfigsModelFromEnvs exampleEnv) = None)
    by (vm_compute; reflexivity).
  split; [exact Hv|].
  destruct (main_accepted_sends_once exampleEnv (respondWith 500 "invalid_payload") Hv)
    as (s & Hs & Hq).
  rewrite Hq.
  assert (E : snd (CreatePayloadParam (createConfigsModelFromEnvs exampleEnv))
              = Returns (nullFieldsPayload, None)) by (vm_compute; reflexivity).
  rewrite E in Hs. injection Hs as <-. reflexivity.
Defined.

Lemma main_reports_refused_request_witness :
  validate (createConfigsModelFromEnvs exampleEnv) = None
  /\ StatusCode (mkResponse 500 "invalid_payload") <> 200
  /\ snd (main exampleEnv (respondWith 500 "invalid_payload")) = Exits 1.
Proof.
  split; [vm_compute; reflexivity|]. split; [discriminate|].
  apply (main_reports_refused_request exampleEnv (respondWith 500 "invalid_payload")
           nullFieldsPayload (mkResponse 500 "invalid_payload")).
  - vm_compute; reflexivity.
  - vm_compute; reflexivity.
  - reflexivity.
  - discriminate.
Defined.

Lemma main_reports_transport_error_witness :
  validate (createConfigsModelFromEnvs exampleEnv) = None
  /\ snd (main exampleEnv unreachableHost) = Exits 1
  /\ last (fst (main exampleEnv unreachableHost))
     = Some (Fmt_Println [Of (Red "Failed to send the request:");
                          Err "dial tcp: connection refused"]).
Proof.
  split; [vm_compute; reflexivity|].
  apply (main_reports_transport_error exampleEnv unreachableHost nullFieldsPayload
           "dial tcp: connection refused").
  - vm_compute; reflexivity.
  - vm_compute; reflexivity.
  - reflexivity.
Defined.

Lemma CreatePayloadParam_unrecognized_mode_witness :
  ~ recognized (FormattingMode exampleUnknownMode)
  /\ last (fst (CreatePayloadParam_with failingMarshal exampleUnknownMode))
     = Some (Println [Red "Invalid formatting mode:"; Plain "markdown"])
  /\ CreatePayloadParam_with failingMarshal exampleUnknownMode
     = CreatePayloadParam_with json_Marshal exampleUnknownMode.
Proof.
  assert (Hr : ~ recognized (FormattingMode exampleUnknownMode))
    by (intros [H | H]; discriminate H).
  split; [exact Hr|].
  destruct (CreatePayloadParam_unrecognized_mode failingMarshal json_Marshal
              exampleUnknownMode Hr) as (Hl & _ & _ & _ & He).
  split; assumption.
Defined.

Lemma notice_iff_failed_without_variant_witness :
  recognized (FormattingMode (set_IsBuildFailed true exampleBuildOK))
  /\ (Println [Yellow " (i) Build failed but no emoji_on_error defined, using default."]
        ∈ fst (CreatePayloadParam (set_IsBuildFailed true exampleBuildOK))
      <-> IsBuildFailed (set_IsBuildFailed true exampleBuildOK) = true
          /\ EmojiOnError (set_IsBuildFailed true exampleBuildOK) = "").
Proof.
  split; [left; reflexivity|].
  destruct (notice_iff_failed_without_variant (set_IsBuildFailed true exampleBuildOK)
              (or_introl eq_refl)) as (_ & _ & _ & He & _).
  exact He.
Defined.

Lemma text_mode_ignores_color_witness :
  FormattingMode exampleBuildOK = formattingModeText
  /\ snd (CreatePayloadParam (set_Colors "danger" "#ff0000" exampleBuildOK))
     = snd (CreatePayloadParam exampleBuildOK).
Proof.
  split; [reflexivity|].
  apply (text_mode_ignores_color exampleBuildOK "danger" "#ff0000"). reflexivity.
Defined.

Lemma failed_build_without_variants_falls_back_witness :
  ColorOnError exampleBuildOK = "" /\ MessageOnError exampleBuildOK = ""
  /\ FromUsernameOnError exampleBuildOK = "" /\ EmojiOnError exampleBuildOK = ""
  /\ IconURLOnError exampleBuildOK = ""
  /\ snd (CreatePayloadParam (set_IsBuildFailed true exampleBuildOK))
     = snd (CreatePayloadParam (set_IsBuildFailed false exampleBuildOK)).
Proof.
  repeat (split; [reflexivity|]).
  apply (failed_build_without_variants_falls_back exampleBuildOK); reflexivity.
Defined.

Lemma payload_never_empty_witness :
  snd (CreatePayloadParam exampleBuildOK) = Returns (nullFieldsPayload, None)
  /\ nullFieldsPayload <> "".
Proof.
  split; [reflexivity|].
  apply (payload_never_empty exampleBuildOK nullFieldsPayload None). reflexivity.
Defined.

Lemma other_variables_ignored_witness :
  ("HOME" ∉ inputNames)
  /\ createConfigsModelFromEnvs (<["HOME" := "/root"]> exampleEnv)
     = createConfigsModelFromEnvs exampleEnv.
Proof.
  assert (Hk : "HOME" ∉ inputNames)
    by (apply (bool_decide_unpack _); vm_compute; exact I).
  split; [exact Hk|].
  apply (other_variables_ignored exampleEnv "HOME" "/root" Hk).
Defined.

Lemma plain_text_serialized_verbatim_witness :
  all_bytes json.htmlSafeSet "Build OK" = true
  /\ json.render (json.Str "Build OK") = json.quoted "Build OK".
Proof.
  split; [reflexivity|].
  apply (plain_text_serialized_verbatim "Build OK"). reflexivity.
Defined.

Lemma payload_text_is_safe_witness :
  all_bytes wireSafe (Message exampleMarkup) = false
  /\ exists s,
       snd (CreatePayloadParam exampleMarkup) = Returns (s, None)
       /\ all_bytes wireSafe s = true.
Proof.
  split; [reflexivity|].
  eexists. split; [reflexivity|].
  apply (payload_text_is_safe exampleMarkup _ None). reflexivity.
Defined.
